(** * AStack: a JVMTI agent serving asynchronous thread dumps

    Shallow embedding of [astack.cpp] and the properties of its
    location resolver, its capture protocol, its dump rendering and its
    option parsing.

    Conventions.
    - [jint] and [jlocation] values are integers of [Z]; the one
      narrowing conversion of the source ([return target] in
      [getLineNumber]) is written out as [to_jint].
    - Opaque runtime handles ([jthread], [jclass], [jmethodID],
      [JNIEnv*], [pthread_t]) are integers: only their identity matters.
    - C strings are [string]s; an in-place update of a buffer returns
      the new contents.
    - The JVMTI/JNI calls whose answers the agent only reads are fields
      of a record [Jvmti]; a call that reports an error is [None].
    - Mutable process state (the tag registry, the capture slot
      [x_trace]/[x_frames], the flag [x_trace_running], the raw monitor,
      the signals in flight, everything written to the sink and to
      stderr) is a record [World] threaded through a state monad. *)

From Stdlib Require Import ZArith String Ascii List Lia Bool DecimalString.
From Stdlib Require Import DecimalPos.
From stdpp Require Import gmap strings.

Open Scope Z_scope.

(** ** Machine integers and handles *)

Definition jint_min : Z := - 2 ^ 31.
Definition jint_max : Z := 2 ^ 31 - 1.

Definition in_jint (z : Z) : Prop := jint_min <= z <= jint_max.

(** Narrowing of a 64-bit [jlocation] to a 32-bit [jint]. *)
Definition to_jint (z : Z) : Z := (z + 2 ^ 31) mod 2 ^ 32 - 2 ^ 31.

Definition jmethodID := Z.
Definition jclass := Z.
Definition jthread := Z.
Definition JNIEnv := Z.
Definition pthread_t := Z.

(** [printf]'s [%d]. *)
Definition fmt_d (z : Z) : string := NilEmpty.string_of_int (Z.to_int z).

(** ** Constants *)

Definition NATIVE_METHOD_LINENO : Z := -3.
Definition MAX_FRAMES : Z := 128.

(** Bound of the spin loop of [dumpThread]: [100 * 1000 * 1000]. *)
Definition SPIN_LIMIT : N := (100 * 1000 * 1000)%N.

(** Thread state bits, with the values the JVMTI specification fixes in
    [jvmti.h]. *)
Definition JVMTI_THREAD_STATE_ALIVE : Z := 0x0001.
Definition JVMTI_THREAD_STATE_TERMINATED : Z := 0x0002.
Definition JVMTI_THREAD_STATE_RUNNABLE : Z := 0x0004.
Definition JVMTI_THREAD_STATE_WAITING_INDEFINITELY : Z := 0x0010.
Definition JVMTI_THREAD_STATE_WAITING_WITH_TIMEOUT : Z := 0x0020.
Definition JVMTI_THREAD_STATE_SLEEPING : Z := 0x0040.
Definition JVMTI_THREAD_STATE_IN_OBJECT_WAIT : Z := 0x0100.
Definition JVMTI_THREAD_STATE_PARKED : Z := 0x0200.
Definition JVMTI_THREAD_STATE_BLOCKED_ON_MONITOR_ENTER : Z := 0x0400.

Definition JNI_OK : Z := 0.
Definition JNI_ERR : Z := -1.

(** ** Data *)

Record AsyncCallFrame := { lineno : Z; method : jmethodID }.

Record ThreadTag := { jni : JNIEnv; thread_id : pthread_t }.

Record jvmtiLineNumberEntry := { start_location : Z; line_number : Z }.

Record jvmtiThreadInfo := { name : string; priority : Z; is_daemon : bool }.

(** The runtime as the agent sees it.  [AsyncGetCallTrace e depth tid]
    is what the stack walker deposits when it runs in the handler of
    thread [tid] with [x_trace.jni = e]: the value of [num_frames] and
    the frames written at the start of the buffer.  [handler_delay k] is
    the number of polls of the requester that pass before the handler of
    the [k]-th signal sent has finished ([None]: it never runs). *)
Record Jvmti := {
  GetMethodName : jmethodID -> option string;
  GetMethodDeclaringClass : jmethodID -> option jclass;
  GetClassSignature : jclass -> option string;
  GetSourceFileName : jclass -> option string;
  GetLineNumberTable : jmethodID -> option (list jvmtiLineNumberEntry);
  GetThreadState : jthread -> option Z;
  GetThreadInfo : jthread -> option jvmtiThreadInfo;
  GetTag_ok : jthread -> bool;
  GetAllThreads : Z + list jthread;
  AsyncGetCallTrace : JNIEnv -> Z -> pthread_t -> Z * list AsyncCallFrame;
  handler_delay : nat -> option N
}.

(** ** Location resolver *)

(** [s[i]]; the terminating NUL is read at the end of the string. *)
Definition char_at (s : string) (i : nat) : ascii :=
  match String.get i s with Some c => c | None => zero end.

(** The loop [for (i = 0; i < len; i++) if (s[i] == '/') s[i] = '.']. *)
Fixpoint replace_slashes (s : string) : string :=
  match s with
  | EmptyString => EmptyString
  | String c r => String (if Ascii.eqb c "/" then "."%char else c) (replace_slashes r)
  end.

Definition fixClassSignature (s : string) : string :=
  let len := String.length s in
  if (len <=? 2)%nat
     || negb (Ascii.eqb (char_at s 0) "L")
     || negb (Ascii.eqb (char_at s (len - 1)) ";")
  then s
  else
    (* memmove(s, s + 1, len - 2); len -= 2; s[len] = '\0' *)
    let s1 := substring 1 (len - 2) s in
    replace_slashes s1.

Definition table_at (table : list jvmtiLineNumberEntry) (i : nat) : jvmtiLineNumberEntry :=
  nth i table {| start_location := 0; line_number := 0 |}.

(** The loop of [getLineNumber] from index [i] on, [n] iterations left;
    returns [line_number] and [last] as they are when the loop is left. *)
Fixpoint scan_table (table : list jvmtiLineNumberEntry) (target : Z)
    (n i : nat) (last : Z) : Z * Z :=
  match n with
  | O => (-1, last)
  | S n' =>
      if (target <? start_location (table_at table i)) && (target >=? last)
      then (line_number (table_at table (i - 1)), last)
      else scan_table table target n' (S i) (start_location (table_at table i))
  end.

Definition getLineNumber (jvmti : Jvmti) (m : jmethodID) (target : Z) : Z :=
  if target <? 0 then to_jint target
  else
    match GetLineNumberTable jvmti m with
    | None => -1
    | Some table =>
        let count := List.length table in
        if (count =? 1)%nat then line_number (table_at table 0)
        else if (1 <? count)%nat then
          let '(line, last) :=
            scan_table table target (count - 1) 1 (start_location (table_at table 0)) in
          if (line =? -1) && (target >=? last)
          then line_number (table_at table (count - 1))
          else line
        else -1
    end.

(** [state & mask] as a C condition. *)
Definition has_bit (state mask : Z) : bool := negb (Z.land state mask =? 0).

Definition threadStateEnum (state : Z) : string :=
  if has_bit state JVMTI_THREAD_STATE_ALIVE then
    if has_bit state JVMTI_THREAD_STATE_RUNNABLE then "RUNNABLE"
    else if has_bit state JVMTI_THREAD_STATE_BLOCKED_ON_MONITOR_ENTER then
      "BLOCKED (on object monitor)"
    else if has_bit state JVMTI_THREAD_STATE_WAITING_INDEFINITELY then
      if has_bit state JVMTI_THREAD_STATE_IN_OBJECT_WAIT then "WAITING (on object monitor)"
      else if has_bit state JVMTI_THREAD_STATE_PARKED then "WAITING (parking)"
      else "WAITING"
    else if has_bit state JVMTI_THREAD_STATE_WAITING_WITH_TIMEOUT then
      if has_bit state JVMTI_THREAD_STATE_IN_OBJECT_WAIT then "TIMED_WAITING (on object monitor)"
      else if has_bit state JVMTI_THREAD_STATE_PARKED then "TIMED_WAITING (parking)"
      else if has_bit state JVMTI_THREAD_STATE_SLEEPING then "TIMED_WAITING (sleeping)"
      else "TIMED_WAITING"
    else "UNKNOWN"
  else if has_bit state JVMTI_THREAD_STATE_TERMINATED then "TERMINATED"
  else "NEW".

(** ** Process state *)

Inductive Stream := Out | Stderr.

(** What the agent does to shared state, in program order.  The log is
    ghost state: the code never reads it. *)
Inductive Event :=
| EMonitorEnter
| EMonitorExit
| ESlotArm (e : JNIEnv)
| ETestAndSet (old : bool)
| EKill (tid : pthread_t)
| EHandler (tid : pthread_t)
| ESlotRead (i : nat)
| EWrite (f : Stream) (s : string).

(** [x_trace.frames] points to [x_frames] whenever a handler can run, so
    the slot is the pair [x_trace_jni], [x_trace_num_frames] and the
    buffer [x_frames]; a cell never written reads as zero (static
    storage).  [x_trace_lock] counts the entries of the raw monitor by
    the worker thread.  [in_flight] lists the signals sent whose handler
    has not run yet, each with the poll number at which it will have
    run; [polls] counts the polls of the flag made so far and [sent] the
    signals sent so far. *)
Record World := {
  tags : gmap jthread ThreadTag;
  x_trace_jni : JNIEnv;
  x_trace_num_frames : Z;
  x_frames : list AsyncCallFrame;
  x_trace_running : bool;
  x_trace_lock : nat;
  in_flight : list (pthread_t * N);
  polls : N;
  sent : nat;
  log : list Event
}.

Definition M (A : Type) : Type := World -> A * World.

#[export] Instance M_ret : MRet M := fun A (a : A) w => (a, w).
#[export] Instance M_bind : MBind M :=
  fun A B (f : A -> M B) (m : M A) w => let '(a, w') := m w in f a w'.

Definition emit (e : Event) : M unit := fun w =>
  (tt, {| tags := tags w; x_trace_jni := x_trace_jni w;
          x_trace_num_frames := x_trace_num_frames w; x_frames := x_frames w;
          x_trace_running := x_trace_running w; x_trace_lock := x_trace_lock w;
          in_flight := in_flight w; polls := polls w; sent := sent w;
          log := log w ++ [e] |}).

(** [for x in l: f x]. *)
Fixpoint for_each {A : Type} (l : list A) (f : A -> M unit) : M unit :=
  match l with
  | [] => mret tt
  | x :: l' => f x ;; for_each l' f
  end.

Definition written (f : Stream) (l : list Event) : list string :=
  omap (fun e => match e with
                 | EWrite Out s => match f with Out => Some s | Stderr => None end
                 | EWrite Stderr s => match f with Out => None | Stderr => Some s end
                 | _ => None
                 end) l.

(** The chunks written to the client so far, one per [fprintf], and the
    ones written to stderr. *)
Definition sink (w : World) : list string := written Out (log w).
Definition stderr (w : World) : list string := written Stderr (log w).

Definition fprintf (f : Stream) (s : string) : M unit := emit (EWrite f s).

Definition RawMonitorEnter : M unit := fun w =>
  emit EMonitorEnter
    {| tags := tags w; x_trace_jni := x_trace_jni w;
       x_trace_num_frames := x_trace_num_frames w; x_frames := x_frames w;
       x_trace_running := x_trace_running w; x_trace_lock := S (x_trace_lock w);
       in_flight := in_flight w; polls := polls w; sent := sent w; log := log w |}.

Definition RawMonitorExit : M unit := fun w =>
  emit EMonitorExit
    {| tags := tags w; x_trace_jni := x_trace_jni w;
       x_trace_num_frames := x_trace_num_frames w; x_frames := x_frames w;
       x_trace_running := x_trace_running w; x_trace_lock := Nat.pred (x_trace_lock w);
       in_flight := in_flight w; polls := polls w; sent := sent w; log := log w |}.

(** [ok(jvmti->GetTag(thread, &tag)) && tag != nullptr], with the tag. *)
Definition GetTag (jvmti : Jvmti) (thread : jthread) : M (option ThreadTag) := fun w =>
  (if GetTag_ok jvmti thread then tags w !! thread else None, w).

(** [x_trace.frames = x_frames; x_trace.jni = e]. *)
Definition arm_slot (e : JNIEnv) : M unit := fun w =>
  emit (ESlotArm e)
    {| tags := tags w; x_trace_jni := e;
       x_trace_num_frames := x_trace_num_frames w; x_frames := x_frames w;
       x_trace_running := x_trace_running w; x_trace_lock := x_trace_lock w;
       in_flight := in_flight w; polls := polls w; sent := sent w; log := log w |}.

(** [x_trace_running.test_and_set()] by the requester. *)
Definition test_and_set : M bool := fun w =>
  let old := x_trace_running w in
  let '(_, w') := emit (ETestAndSet old)
    {| tags := tags w; x_trace_jni := x_trace_jni w;
       x_trace_num_frames := x_trace_num_frames w; x_frames := x_frames w;
       x_trace_running := true; x_trace_lock := x_trace_lock w;
       in_flight := in_flight w; polls := polls w; sent := sent w; log := log w |} in
  (old, w').

(** [pthread_kill(tid, SIGSTACK)]: the signal is in flight until its
    handler has run. *)
Definition pthread_kill (jvmti : Jvmti) (tid : pthread_t) : M unit := fun w =>
  emit (EKill tid)
    {| tags := tags w; x_trace_jni := x_trace_jni w;
       x_trace_num_frames := x_trace_num_frames w; x_frames := x_frames w;
       x_trace_running := x_trace_running w; x_trace_lock := x_trace_lock w;
       in_flight := in_flight w ++
         match handler_delay jvmti (sent w) with
         | Some d => [(tid, (polls w + d)%N)]
         | None => []
         end;
       polls := polls w; sent := S (sent w); log := log w |}.

(** The handler, run in thread [tid]: the walker fills the slot, then
    the flag is cleared. *)
Definition signalHandler (jvmti : Jvmti) (tid : pthread_t) : M unit := fun w =>
  let '(n, fs) := AsyncGetCallTrace jvmti (x_trace_jni w) MAX_FRAMES tid in
  emit (EHandler tid)
    {| tags := tags w; x_trace_jni := x_trace_jni w;
       x_trace_num_frames := n;
       x_frames := fs ++ skipn (List.length fs) (x_frames w);
       x_trace_running := false; x_trace_lock := x_trace_lock w;
       in_flight := in_flight w; polls := polls w; sent := sent w; log := log w |}.

Definition is_due (now : N) (p : pthread_t * N) : bool := (snd p <=? now)%N.

(** The interrupted threads between two polls of the requester: every
    handler that is due runs, in the order the signals were sent, and
    [polls] advances by one.  Handlers run at these points only: one
    that would run while the requester writes a block is not part of
    the model. *)
Definition run_handlers (jvmti : Jvmti) : M unit := fun w =>
  let now := polls w in
  for_each (List.filter (is_due now) (in_flight w))
           (fun p => signalHandler jvmti (fst p))
    {| tags := tags w; x_trace_jni := x_trace_jni w;
       x_trace_num_frames := x_trace_num_frames w; x_frames := x_frames w;
       x_trace_running := x_trace_running w; x_trace_lock := x_trace_lock w;
       in_flight := List.filter (fun p => negb (is_due now p)) (in_flight w);
       polls := N.succ now; sent := sent w; log := log w |}.

(** The loop [for (i = 0; i < 100 * 1000 * 1000; i++)] of [dumpThread]
    with [n] iterations left; the result is [done]. *)
Fixpoint spin (jvmti : Jvmti) (n : nat) : M bool :=
  match n with
  | O => mret false
  | S n' =>
      run_handlers jvmti ;;
      old ← test_and_set ;
      if negb old then mret true else spin jvmti n'
  end.

(** ** Rendering *)

Definition nl : string := String "010"%char EmptyString.
Definition tab : string := String "009"%char EmptyString.
Definition dquote : string := String "034"%char EmptyString.

(** [name ?: "Unknown"]. *)
Definition or_unknown (s : option string) : string :=
  match s with Some t => t | None => "Unknown" end.

Definition printCallFrame (jvmti : Jvmti) (m : jmethodID) (lineno : Z) : M unit :=
  let method_name := GetMethodName jvmti m in
  let '(class_name, source_name) :=
    match GetMethodDeclaringClass jvmti m with
    | Some clazz =>
        (match GetClassSignature jvmti clazz with
         | Some sig => Some (fixClassSignature sig)
         | None => None
         end,
         GetSourceFileName jvmti clazz)
    | None => (None, None)
    end in
  let line_number := getLineNumber jvmti m lineno in
  let class_text := or_unknown class_name in
  let method_text := or_unknown method_name in
  if line_number =? NATIVE_METHOD_LINENO then
    fprintf Out (tab +:+ "at " +:+ class_text +:+ "." +:+ method_text +:+ "(Native Method)" +:+ nl)
  else
    match source_name with
    | None =>
        fprintf Out (tab +:+ "at " +:+ class_text +:+ "." +:+ method_text +:+ "(Unknown Source)" +:+ nl)
    | Some source =>
        if line_number <=? 0 then
          fprintf Out (tab +:+ "at " +:+ class_text +:+ "." +:+ method_text
                       +:+ "(" +:+ source +:+ ")" +:+ nl)
        else
          fprintf Out (tab +:+ "at " +:+ class_text +:+ "." +:+ method_text
                       +:+ "(" +:+ source +:+ ":" +:+ fmt_d line_number +:+ ")" +:+ nl)
    end.

Definition thread_header (info : jvmtiThreadInfo) (state : Z) : string :=
  dquote +:+ name info +:+ dquote +:+ (if is_daemon info then " daemon" else EmptyString)
  +:+ " prio=" +:+ fmt_d (priority info) +:+ nl
  +:+ "  java.lang.Thread.Stage: " +:+ threadStateEnum state +:+ nl.

(** [&(x_trace.frames[i])], read by the requester. *)
Definition read_frame (i : nat) : M AsyncCallFrame := fun w =>
  let '(_, w') := emit (ESlotRead i) w in
  (nth i (x_frames w) {| lineno := 0; method := 0 |}, w').

Definition printThreadDump (jvmti : Jvmti) (thread : jthread) : M unit :=
  match GetThreadState jvmti thread with
  | Some state =>
      match GetThreadInfo jvmti thread with
      | Some info => fprintf Out (thread_header info state)
      | None => mret tt
      end
  | None => mret tt
  end ;;
  num_frames ← (fun w => (x_trace_num_frames w, w)) ;
  for_each (seq 0 (Z.to_nat num_frames))
           (fun i => frame ← read_frame i ;
                     printCallFrame jvmti (method frame) (lineno frame)) ;;
  fprintf Out nl.

(** ** Capture *)

(** [dumpThread] returns nothing; the value returned here names the path
    by which it is left: the early return when the thread has no tag,
    the warning after the spin bound, or the dump of the thread. *)
Inductive Outcome := Unavailable | Timeout | Captured.

Definition dumpThread (jvmti : Jvmti) (thread : jthread) : M Outcome :=
  RawMonitorEnter ;;
  tag ← GetTag jvmti thread ;
  match tag with
  | None =>
      RawMonitorExit ;;
      mret Unavailable
  | Some tag =>
      arm_slot (jni tag) ;;
      _ ← test_and_set ;
      pthread_kill jvmti (thread_id tag) ;;
      done ← spin jvmti (N.to_nat SPIN_LIMIT) ;
      RawMonitorExit ;;
      if (done : bool) then
        printThreadDump jvmti thread ;;
        mret Captured
      else
        fprintf Stderr ("WARNING: AStack trace did not complete" +:+ nl) ;;
        mret Timeout
  end.

(** The loop of [handleClient], with the outcome of every thread. *)
Fixpoint dumpThreads (jvmti : Jvmti) (threads : list jthread) : M (list Outcome) :=
  match threads with
  | [] => mret []
  | thread :: rest =>
      o ← dumpThread jvmti thread ;
      os ← dumpThreads jvmti rest ;
      mret (o :: os)
  end.

Definition handleClient (jvmti : Jvmti) : M (list Outcome) :=
  match GetAllThreads jvmti with
  | inl err =>
      fprintf Stderr ("WARNING: GetAllThreads failed: " +:+ fmt_d err +:+ nl) ;;
      mret []
  | inr threads => dumpThreads jvmti threads
  end.

(** ** Startup options *)

(** [sscanf] of the C library, for the one format the agent uses:
    ["port=%d"].  An ordinary character of the format must be the next
    character of the input; [%d] skips white space, then takes an
    optional sign and the longest run of decimal digits, of which there
    must be one.  The result is the value returned (the number of
    conversions stored, or [EOF] when the input ends first) and the
    [int] stored. *)
Definition EOF : Z := -1.

Inductive Scan (A : Type) :=
| Matched (a : A) (rest : string)
| MatchingFailure
| InputFailure.
Arguments Matched {A} a rest.
Arguments MatchingFailure {A}.
Arguments InputFailure {A}.

Definition isspace (c : ascii) : bool :=
  let n := nat_of_ascii c in
  ((n =? 32) || ((9 <=? n) && (n <=? 13)))%nat.

Definition isdigit (c : ascii) : bool :=
  let n := nat_of_ascii c in
  ((48 <=? n) && (n <=? 57))%nat.

Definition digit_value (c : ascii) : Z := Z.of_nat (nat_of_ascii c) - 48.

Fixpoint match_literal (lit input : string) : Scan unit :=
  match lit with
  | EmptyString => Matched tt input
  | String c lit' =>
      match input with
      | EmptyString => InputFailure
      | String d input' =>
          if Ascii.eqb c d then match_literal lit' input' else MatchingFailure
      end
  end.

Fixpoint skip_spaces (s : string) : string :=
  match s with
  | String c r => if isspace c then skip_spaces r else s
  | EmptyString => s
  end.

Fixpoint read_digits (acc : Z) (s : string) : Z * string :=
  match s with
  | String c r => if isdigit c then read_digits (10 * acc + digit_value c) r else (acc, s)
  | EmptyString => (acc, s)
  end.

Definition starts_with_digit (s : string) : bool :=
  match s with
  | String c _ => isdigit c
  | EmptyString => false
  end.

Definition scan_d (input : string) : Scan Z :=
  match skip_spaces input with
  | EmptyString => InputFailure
  | String c r =>
      let negative := Ascii.eqb c "-" in
      let body := if negative || Ascii.eqb c "+" then r else String c r in
      if starts_with_digit body then
        let '(v, rest) := read_digits 0 body in
        Matched (if negative then - v else v) rest
      else MatchingFailure
  end.

(** The value [%d] stores for the number read: glibc converts with
    [strtol], which saturates at the range of [long], and narrows the
    result to [int]. *)
Definition store_int (v : Z) : Z :=
  to_jint (Z.max (- 2 ^ 63) (Z.min (2 ^ 63 - 1) v)).

Definition sscanf_port (input : string) : Z * option Z :=
  match match_literal "port=" input with
  | Matched _ rest =>
      match scan_d rest with
      | Matched v _ => (1, Some (store_int v))
      | MatchingFailure => (0, None)
      | InputFailure => (EOF, None)
      end
  | MatchingFailure => (0, None)
  | InputFailure => (EOF, None)
  end.

(** The answers of the virtual machine to the calls [Agent_OnLoad] makes
    after it has parsed the options: the result of [GetEnv] and the
    [jvmtiError] of each JVMTI call ([0] is [JVMTI_ERROR_NONE]). *)
Record JavaVM := {
  GetEnv : Z;
  CreateRawMonitor : Z;
  AddCapabilities : Z;
  SetEventCallbacks : Z;
  SetEventNotificationMode : Z -> Z
}.

Definition JVMTI_EVENT_VM_INIT : Z := 50.
Definition JVMTI_EVENT_THREAD_START : Z := 52.
Definition JVMTI_EVENT_THREAD_END : Z := 53.
Definition JVMTI_EVENT_CLASS_LOAD : Z := 55.
Definition JVMTI_EVENT_CLASS_PREPARE : Z := 56.

Definition ok (err : Z) : bool := err =? 0.

(** What [Agent_OnLoad] leaves behind: the value returned, the static
    [port] (zero until set) and the lines written to stderr. *)
Record Loaded := { returned : Z; port : Z; complaints : list string }.

Fixpoint enable_events (vm : JavaVM) (events : list Z) : option Z :=
  match events with
  | [] => None
  | event :: rest =>
      let err := SetEventNotificationMode vm event in
      if ok err then enable_events vm rest else Some err
  end.

Definition Agent_OnLoad (vm : JavaVM) (options : option string) : Loaded :=
  let scanned :=
    match options with
    | None => None
    | Some s => let '(n, v) := sscanf_port s in if n =? 1 then v else None
    end in
  match scanned with
  | None =>
      {| returned := JNI_ERR; port := 0;
         complaints := ["ERROR: failed to parse port option" +:+ nl] |}
  | Some p =>
      if negb (GetEnv vm =? JNI_OK) then
        {| returned := JNI_ERR; port := p;
           complaints := ["ERROR: GetEnv failed: " +:+ fmt_d (GetEnv vm) +:+ nl] |}
      else if negb (ok (CreateRawMonitor vm)) then
        {| returned := JNI_ERR; port := p;
           complaints := ["ERROR: CreateRawMonitor failed: " +:+ fmt_d (CreateRawMonitor vm) +:+ nl] |}
      else if negb (ok (AddCapabilities vm)) then
        {| returned := JNI_ERR; port := p;
           complaints := ["ERROR: AddCapabilities failed: " +:+ fmt_d (AddCapabilities vm) +:+ nl] |}
      else if negb (ok (SetEventCallbacks vm)) then
        {| returned := JNI_ERR; port := p;
           complaints := ["ERROR: SetEventCallbacks failed: " +:+ fmt_d (SetEventCallbacks vm) +:+ nl] |}
      else
        match enable_events vm [JVMTI_EVENT_VM_INIT; JVMTI_EVENT_CLASS_LOAD;
                                JVMTI_EVENT_CLASS_PREPARE; JVMTI_EVENT_THREAD_START;
                                JVMTI_EVENT_THREAD_END] with
        | Some err =>
            {| returned := JNI_ERR; port := p;
               complaints := ["ERROR: SetEventNotificationMode failed: " +:+ fmt_d err +:+ nl] |}
        | None => {| returned := JNI_OK; port := p; complaints := [] |}
        end
  end.

(** ** Definitions used to state the properties *)

(** A table of rules read top down, first match wins. *)
Fixpoint first_match (rules : list ((Z -> bool) * string)) (otherwise : string)
    (state : Z) : string :=
  match rules with
  | [] => otherwise
  | (applies, label) :: rest =>
      if applies state then label else first_match rest otherwise state
  end.

Definition is_alive (s : Z) : bool := has_bit s JVMTI_THREAD_STATE_ALIVE.
Definition is_terminated (s : Z) : bool := has_bit s JVMTI_THREAD_STATE_TERMINATED.
Definition is_runnable (s : Z) : bool := has_bit s JVMTI_THREAD_STATE_RUNNABLE.
Definition is_blocked (s : Z) : bool := has_bit s JVMTI_THREAD_STATE_BLOCKED_ON_MONITOR_ENTER.
Definition waits_indefinitely (s : Z) : bool := has_bit s JVMTI_THREAD_STATE_WAITING_INDEFINITELY.
Definition waits_with_timeout (s : Z) : bool := has_bit s JVMTI_THREAD_STATE_WAITING_WITH_TIMEOUT.
Definition in_object_wait (s : Z) : bool := has_bit s JVMTI_THREAD_STATE_IN_OBJECT_WAIT.
Definition is_parked (s : Z) : bool := has_bit s JVMTI_THREAD_STATE_PARKED.
Definition is_sleeping (s : Z) : bool := has_bit s JVMTI_THREAD_STATE_SLEEPING.

(** The rules for a thread that has started and not ended, with the
    label of a blocked thread left open. *)
Definition alive_rules (blocked_label : string) : list ((Z -> bool) * string) :=
  [ (is_runnable, "RUNNABLE");
    (is_blocked, blocked_label);
    (fun s => waits_indefinitely s && in_object_wait s, "WAITING (on object monitor)");
    (fun s => waits_indefinitely s && is_parked s, "WAITING (parking)");
    (waits_indefinitely, "WAITING");
    (fun s => waits_with_timeout s && in_object_wait s, "TIMED_WAITING (on object monitor)");
    (fun s => waits_with_timeout s && is_parked s, "TIMED_WAITING (parking)");
    (fun s => waits_with_timeout s && is_sleeping s, "TIMED_WAITING (sleeping)");
    (waits_with_timeout, "TIMED_WAITING") ].

(** The order of the specification, in its words: a thread is not yet
    started when it is neither alive nor terminated, it is terminated
    when its terminated bit is set, and a blocked thread is labelled
    [BLOCKED]. *)
Definition stated_rules : list ((Z -> bool) * string) :=
  (fun s => negb (is_alive s) && negb (is_terminated s), "NEW")
  :: (is_terminated, "TERMINATED")
  :: alive_rules "BLOCKED".

(** The same order as the code decides it: the terminated bit counts
    only for a thread that is not alive, and the label of a blocked
    thread names the monitor. *)
Definition decoded_rules : list ((Z -> bool) * string) :=
  (fun s => negb (is_alive s) && negb (is_terminated s), "NEW")
  :: (fun s => negb (is_alive s) && is_terminated s, "TERMINATED")
  :: alive_rules "BLOCKED (on object monitor)".

(** Starts increase from one entry of the table to the next. *)
Definition increasing (table : list jvmtiLineNumberEntry) : Prop :=
  forall i : nat, (S i < List.length table)%nat ->
    start_location (table_at table i) < start_location (table_at table (S i)).

(** The lines are those of a class file: unsigned 16-bit numbers. *)
Definition class_file_lines (table : list jvmtiLineNumberEntry) : Prop :=
  forall e : jvmtiLineNumberEntry, In e table -> 0 <= line_number e <= 65535.

Definition replace_slash (c : ascii) : ascii :=
  if Ascii.eqb c "/" then "."%char else c.

(** The name matches the wrapper pattern: at least three characters,
    the first an [L] and the last a semicolon. *)
Definition wrapped (s : string) : Prop :=
  (3 <= String.length s)%nat
  /\ String.get 0 s = Some "L"%char
  /\ String.get (String.length s - 1) s = Some ";"%char.

(** The four outcomes of the resolver for a frame. *)
Inductive Location :=
| NativeMethod
| UnknownSource
| SourceOnly (source : string)
| SourceLine (source : string) (line : Z).

Definition location_text (l : Location) : string :=
  match l with
  | NativeMethod => "Native Method"
  | UnknownSource => "Unknown Source"
  | SourceOnly source => source
  | SourceLine source line => source +:+ ":" +:+ fmt_d line
  end.

(** The metadata of a frame's method as the dump shows it. *)
Definition class_text (jvmti : Jvmti) (m : jmethodID) : string :=
  match GetMethodDeclaringClass jvmti m with
  | Some clazz =>
      match GetClassSignature jvmti clazz with
      | Some sig => fixClassSignature sig
      | None => "Unknown"
      end
  | None => "Unknown"
  end.

Definition method_text (jvmti : Jvmti) (m : jmethodID) : string :=
  match GetMethodName jvmti m with
  | Some n => n
  | None => "Unknown"
  end.

Definition source_file (jvmti : Jvmti) (m : jmethodID) : option string :=
  match GetMethodDeclaringClass jvmti m with
  | Some clazz => GetSourceFileName jvmti clazz
  | None => None
  end.

Definition resolve (jvmti : Jvmti) (m : jmethodID) (lineno : Z) : Location :=
  let line := getLineNumber jvmti m lineno in
  if line =? NATIVE_METHOD_LINENO then NativeMethod
  else match source_file jvmti m with
       | None => UnknownSource
       | Some source => if line <=? 0 then SourceOnly source else SourceLine source line
       end.

Definition frame_line (jvmti : Jvmti) (f : AsyncCallFrame) : string :=
  tab +:+ "at " +:+ class_text jvmti (method f) +:+ "." +:+ method_text jvmti (method f)
  +:+ "(" +:+ location_text (resolve jvmti (method f) (lineno f)) +:+ ")" +:+ nl.

(** The world with more events in its log and nothing else changed. *)
Definition log_add (w : World) (es : list Event) : World :=
  {| tags := tags w; x_trace_jni := x_trace_jni w;
     x_trace_num_frames := x_trace_num_frames w; x_frames := x_frames w;
     x_trace_running := x_trace_running w; x_trace_lock := x_trace_lock w;
     in_flight := in_flight w; polls := polls w; sent := sent w;
     log := log w ++ es |}.

Definition frame_at (frames : list AsyncCallFrame) (i : nat) : AsyncCallFrame :=
  nth i frames {| lineno := 0; method := 0 |}.

(** The header of a thread's block, when the runtime gives both its
    state and its description. *)
Definition header_chunks (jvmti : Jvmti) (thread : jthread) : list string :=
  match GetThreadState jvmti thread, GetThreadInfo jvmti thread with
  | Some state, Some info => [thread_header info state]
  | _, _ => []
  end.

(** The block of a thread whose capture left [n] in [num_frames] and
    [frames] in the buffer: header, one line per frame, blank line. *)
Definition thread_block (jvmti : Jvmti) (thread : jthread) (n : Z)
    (frames : list AsyncCallFrame) : list string :=
  header_chunks jvmti thread
  ++ map (fun i => frame_line jvmti (frame_at frames i)) (seq 0 (Z.to_nat n))
  ++ [nl].

(** The events of rendering that block: every frame is read from the
    slot when its line is written. *)
Definition print_events (jvmti : Jvmti) (thread : jthread) (n : Z)
    (frames : list AsyncCallFrame) : list Event :=
  map (EWrite Out) (header_chunks jvmti thread)
  ++ flat_map (fun i => [ESlotRead i; EWrite Out (frame_line jvmti (frame_at frames i))])
              (seq 0 (Z.to_nat n))
  ++ [EWrite Out nl].

Definition timeout_warning : string := "WARNING: AStack trace did not complete" +:+ nl.

(** The world after [n] polls that found the flag set while no handler
    ran. *)
Definition ticked (w : World) (n : nat) : World :=
  {| tags := tags w; x_trace_jni := x_trace_jni w;
     x_trace_num_frames := x_trace_num_frames w; x_frames := x_frames w;
     x_trace_running := x_trace_running w; x_trace_lock := x_trace_lock w;
     in_flight := in_flight w; polls := polls w + N.of_nat n; sent := sent w;
     log := log w ++ repeat (ETestAndSet true) n |}.

(** What the handler of thread [tid] leaves in the buffer. *)
Definition deposited (jvmti : Jvmti) (e : JNIEnv) (tid : pthread_t)
    (old : list AsyncCallFrame) : list AsyncCallFrame :=
  snd (AsyncGetCallTrace jvmti e MAX_FRAMES tid)
  ++ skipn (List.length (snd (AsyncGetCallTrace jvmti e MAX_FRAMES tid))) old.

(** The world in which [dumpThread] leaves the monitor after a capture
    of the thread tagged [tag] that began in [w] with no signal in
    flight and whose handler ran after [d] polls. *)
Definition captured (jvmti : Jvmti) (tag : ThreadTag) (d : N) (w : World) : World :=
  {| tags := tags w; x_trace_jni := jni tag;
     x_trace_num_frames := fst (AsyncGetCallTrace jvmti (jni tag) MAX_FRAMES (thread_id tag));
     x_frames := deposited jvmti (jni tag) (thread_id tag) (x_frames w);
     x_trace_running := true; x_trace_lock := x_trace_lock w;
     in_flight := []; polls := polls w + d + 1; sent := S (sent w);
     log := log w
            ++ [EMonitorEnter; ESlotArm (jni tag); ETestAndSet (x_trace_running w);
                EKill (thread_id tag)]
            ++ repeat (ETestAndSet true) (N.to_nat d)
            ++ [EHandler (thread_id tag); ETestAndSet false; EMonitorExit] |}.

(** The world in which [dumpThread] starts to spin: the monitor entered,
    the slot armed for the thread tagged [tag], the flag set and the
    signal sent. *)
Definition signalled (jvmti : Jvmti) (tag : ThreadTag) (w : World) : World :=
  {| tags := tags w; x_trace_jni := jni tag;
     x_trace_num_frames := x_trace_num_frames w; x_frames := x_frames w;
     x_trace_running := true; x_trace_lock := S (x_trace_lock w);
     in_flight := in_flight w ++
       match handler_delay jvmti (sent w) with
       | Some d => [(thread_id tag, (polls w + d)%N)]
       | None => []
       end;
     polls := polls w; sent := S (sent w);
     log := log w ++ [EMonitorEnter; ESlotArm (jni tag);
                      ETestAndSet (x_trace_running w); EKill (thread_id tag)] |}.

(** The world left by [RawMonitorExit]. *)
Definition left_monitor (w : World) : World := snd (RawMonitorExit w).

(** The world in which [dumpThread] returns after a capture of the
    thread tagged [tag] that began in [w] and during which no handler
    ran before the spin bound. *)
Definition timed_out (jvmti : Jvmti) (tag : ThreadTag) (w : World) : World :=
  log_add (left_monitor (ticked (signalled jvmti tag w) (N.to_nat SPIN_LIMIT)))
          [EWrite Stderr timeout_warning].

(** The world in which [dumpThread] leaves the monitor after a capture
    of the thread tagged [tag] that began in [w] when the handler of
    thread [tid], due already, ran before the first poll and the signals
    [rest] stayed in flight. *)
Definition answered (jvmti : Jvmti) (tag : ThreadTag) (tid : pthread_t)
    (rest : list (pthread_t * N)) (w : World) : World :=
  {| tags := tags w; x_trace_jni := jni tag;
     x_trace_num_frames := fst (AsyncGetCallTrace jvmti (jni tag) MAX_FRAMES tid);
     x_frames := deposited jvmti (jni tag) tid (x_frames w);
     x_trace_running := true; x_trace_lock := x_trace_lock w;
     in_flight := rest; polls := N.succ (polls w); sent := S (sent w);
     log := log w
            ++ [EMonitorEnter; ESlotArm (jni tag); ETestAndSet (x_trace_running w);
                EKill (thread_id tag)]
            ++ [EHandler tid; ETestAndSet false; EMonitorExit] |}.

(** The events of the spin loop: polls of the flag and handlers. *)
Definition poll_event (e : Event) : Prop :=
  match e with
  | ETestAndSet _ | EHandler _ => True
  | _ => False
  end.

Fixpoint all_chars (p : ascii -> bool) (s : string) : bool :=
  match s with
  | EmptyString => true
  | String c r => p c && all_chars p r
  end.

(** The options [%d] can parse after the prefix: white space if any, a
    sign if any, one decimal digit or more, and then anything. *)
Definition port_option (s : string) : Prop :=
  exists ws sign digits tail : string,
    s = "port=" +:+ ws +:+ sign +:+ digits +:+ tail
    /\ all_chars isspace ws = true
    /\ (sign = EmptyString \/ sign = "+" \/ sign = "-")
    /\ digits <> EmptyString
    /\ all_chars isdigit digits = true.

Definition parse_complaint : string := "ERROR: failed to parse port option" +:+ nl.

(** [Agent_OnLoad] fails on the options themselves. *)
Definition rejects_options (vm : JavaVM) (options : option string) : Prop :=
  returned (Agent_OnLoad vm options) = JNI_ERR
  /\ complaints (Agent_OnLoad vm options) = [parse_complaint].

(** ** A runtime to run the agent on

    Two threads, 1 and 2, tagged when they started.  The stack walker
    finds one frame in each: [marker_a] in the thread of [tag_a],
    [marker_b] in the thread of [tag_b]. *)

Definition marker_a : AsyncCallFrame := {| lineno := 4; method := 1 |}.
Definition marker_b : AsyncCallFrame := {| lineno := 8; method := 2 |}.

Definition tag_a : ThreadTag := {| jni := 11; thread_id := 101 |}.
Definition tag_b : ThreadTag := {| jni := 22; thread_id := 202 |}.

Definition demo_table : list jvmtiLineNumberEntry :=
  [ {| start_location := 0; line_number := 10 |};
    {| start_location := 6; line_number := 20 |};
    {| start_location := 12; line_number := 30 |} ].

Definition demo_jvmti (table : list jvmtiLineNumberEntry) (delay : nat -> option N) : Jvmti :=
  {| GetMethodName := fun m =>
       if m =? 1 then Some "markerA" else if m =? 2 then Some "markerB" else None;
     GetMethodDeclaringClass := fun m => if m =? 3 then None else Some 7;
     GetClassSignature := fun _ => Some "Ldemo/Markers;";
     GetSourceFileName := fun _ => Some "Markers.java";
     GetLineNumberTable := fun _ => Some table;
     GetThreadState := fun _ => Some 0x0191;
     GetThreadInfo := fun t =>
       Some {| name := if t =? 1 then "worker-a" else "worker-b";
               priority := 5; is_daemon := false |};
     GetTag_ok := fun _ => true;
     GetAllThreads := inr [1; 2];
     AsyncGetCallTrace := fun _ _ tid =>
       if tid =? 101 then (1, [marker_a]) else (1, [marker_b]);
     handler_delay := delay |}.

(** Every handler has run when the requester polls for the sixth time. *)
Definition prompt : nat -> option N := fun _ => Some 5%N.

(** The handler of the first signal has run only when the requester has
    given up; the later ones are prompt. *)
Definition late_first : nat -> option N :=
  fun k => match k with O => Some SPIN_LIMIT | S _ => Some 5%N end.

(** No handler ever runs. *)
Definition never : nat -> option N := fun _ => None.

Definition demo_world : World :=
  {| tags := <[1 := tag_a]> (<[2 := tag_b]> ∅);
     x_trace_jni := 0; x_trace_num_frames := 0; x_frames := [];
     x_trace_running := false; x_trace_lock := 0;
     in_flight := []; polls := 0; sent := 0; log := [] |}.

Definition demo_vm : JavaVM :=
  {| GetEnv := 0; CreateRawMonitor := 0; AddCapabilities := 0;
     SetEventCallbacks := 0; SetEventNotificationMode := fun _ => 0 |}.

(** ** Thread identity registry *)

(** The answers of the runtime to the calls of a thread callback that
    allocate and attach: the [jvmtiError] of [Allocate] and the one of
    [SetTag] for a thread. *)
Record Tagging := {
  Allocate : Z;
  SetTag : jthread -> Z
}.

(** The registry after a [SetTag] that succeeded. *)
Definition set_tags (reg : gmap jthread ThreadTag) : M unit := fun w =>
  (tt, {| tags := reg; x_trace_jni := x_trace_jni w;
          x_trace_num_frames := x_trace_num_frames w; x_frames := x_frames w;
          x_trace_running := x_trace_running w; x_trace_lock := x_trace_lock w;
          in_flight := in_flight w; polls := polls w; sent := sent w;
          log := log w |}).

(** [onThreadStart], run by the thread that starts: [env] is its
    [JNIEnv] and [self] is [pthread_self()]. *)
Definition onThreadStart (rt : Tagging) (env : JNIEnv) (self : pthread_t)
    (thread : jthread) : M unit :=
  let err := Allocate rt in
  if negb (ok err) then
    fprintf Stderr ("WARNING: Allocate failed: " +:+ fmt_d err +:+ nl)
  else
    let tag := {| jni := env; thread_id := self |} in
    let err := SetTag rt thread in
    if negb (ok err) then
      fprintf Stderr ("WARNING: SetTag for thread failed: " +:+ fmt_d err +:+ nl)
    else
      reg ← (fun w => (tags w, w)) ;
      set_tags (<[thread := tag]> reg).

(** [onThreadEnd]: the tag is freed and [SetTag(thread, 0)] detaches it.
    The memory of a tag is not modelled: when [SetTag] is refused the
    thread keeps the tag value, whose memory the callback has released. *)
Definition onThreadEnd (jvmti : Jvmti) (rt : Tagging) (thread : jthread) : M unit :=
  RawMonitorEnter ;;
  tag ← GetTag jvmti thread ;
  match tag with
  | Some _ =>
      let err := SetTag rt thread in
      if negb (ok err) then
        fprintf Stderr ("WARNING: SetTag for thread failed: " +:+ fmt_d err +:+ nl)
      else
        reg ← (fun w => (tags w, w)) ;
        set_tags (delete thread reg)
  | None => mret tt
  end ;;
  RawMonitorExit.

(** ** More definitions used to state the properties *)

(** The bits [threadStateEnum] tests. *)
Definition tested_bits : Z := 0x0777.

(** The tag [GetTag] finds for a thread in a registry. *)
Definition tag_of (jvmti : Jvmti) (reg : gmap jthread ThreadTag) (thread : jthread)
    : option ThreadTag :=
  if GetTag_ok jvmti thread then reg !! thread else None.

(** Every handler runs within the spin bound. *)
Definition quiet (jvmti : Jvmti) : Prop :=
  forall k : nat, exists d : N, handler_delay jvmti k = Some d /\ (d < SPIN_LIMIT)%N.

(** The stack walker writes the frames it counts. *)
Definition walker_counts (jvmti : Jvmti) : Prop :=
  forall (e : JNIEnv) (depth : Z) (tid : pthread_t),
    (Z.to_nat (fst (AsyncGetCallTrace jvmti e depth tid))
     <= List.length (snd (AsyncGetCallTrace jvmti e depth tid)))%nat.

(** The block of a thread in a dump during which no capture fails:
    nothing for a thread without a tag, and otherwise the frames the
    stack walker finds in that thread. *)
Definition own_block (jvmti : Jvmti) (reg : gmap jthread ThreadTag) (thread : jthread)
    : list string :=
  match tag_of jvmti reg thread with
  | None => []
  | Some tag =>
      thread_block jvmti thread
        (fst (AsyncGetCallTrace jvmti (jni tag) MAX_FRAMES (thread_id tag)))
        (snd (AsyncGetCallTrace jvmti (jni tag) MAX_FRAMES (thread_id tag)))
  end.

Definition own_outcome (jvmti : Jvmti) (reg : gmap jthread ThreadTag) (thread : jthread)
    : Outcome :=
  match tag_of jvmti reg thread with
  | None => Unavailable
  | Some _ => Captured
  end.

(** The signals a dump sends: one for every thread that has a tag. *)
Definition signals (os : list Outcome) : nat :=
  List.length (List.filter (fun o => match o with Unavailable => false | _ => true end) os).

(** A runtime that refuses no call of a thread callback. *)
Definition demo_tagging : Tagging := {| Allocate := 0; SetTag := fun _ => 0 |}.

(** * Properties *)

(** ** Thread state labels *)

(** C4 (as amended).  For every raw state bitmask the label is the first
    match of this order: neither alive nor terminated, [NEW]; not alive
    and terminated, [TERMINATED]; runnable, [RUNNABLE]; blocked on a
    monitor, [BLOCKED (on object monitor)]; waiting indefinitely, the
    three [WAITING] labels; waiting with a timeout, the four
    [TIMED_WAITING] labels; anything else, [UNKNOWN]. *)
Theorem threadStateEnum_first_match (state : Z) :
  threadStateEnum state = first_match decoded_rules "UNKNOWN" state.
Proof.
  unfold threadStateEnum, decoded_rules, alive_rules, first_match,
    is_alive, is_terminated, is_runnable, is_blocked, waits_indefinitely,
    waits_with_timeout, in_object_wait, is_parked, is_sleeping.
  repeat match goal with
         | |- context [has_bit state ?m] => destruct (has_bit state m); simpl
         end; reflexivity.
Qed.

(** C4 as stated fails on an alive thread blocked on a monitor, whose
    label names the monitor, and on a mask with both the alive and the
    terminated bit, which is decoded as an alive thread. *)
Lemma threadStateEnum_not_as_stated :
  threadStateEnum 0x0401 = "BLOCKED (on object monitor)"
  /\ threadStateEnum 0x0401 <> first_match stated_rules "UNKNOWN" 0x0401
  /\ threadStateEnum 0x0003 = "UNKNOWN"
  /\ threadStateEnum 0x0003 <> first_match stated_rules "UNKNOWN" 0x0003.
Proof. repeat split; (reflexivity || discriminate). Qed.

(** The end-to-end labels of a parked and of a sleeping thread. *)
Example threadStateEnum_parked_sleeping :
  threadStateEnum 0x0291 = "WAITING (parking)"
  /\ threadStateEnum 0x00E1 = "TIMED_WAITING (sleeping)".
Proof. split; reflexivity. Qed.

(** ** Line numbers *)

Lemma to_jint_id (z : Z) : in_jint z -> to_jint z = z.
Proof.
  unfold in_jint, jint_min, jint_max, to_jint. intros H.
  rewrite Z.mod_small; lia.
Qed.

Lemma increasing_le (table : list jvmtiLineNumberEntry) (i j : nat) :
  increasing table -> (i <= j)%nat -> (j < List.length table)%nat ->
  start_location (table_at table i) <= start_location (table_at table j).
Proof.
  intros Hinc Hij. induction Hij as [|j Hij IH]; intros Hj.
  - lia.
  - specialize (Hinc j Hj). lia.
Qed.

(** Below the entry that holds the target no iteration matches. *)
Lemma scan_table_hit (table : list jvmtiLineNumberEntry) (target : Z) (k : nat) :
  increasing table -> (S k < List.length table)%nat ->
  start_location (table_at table k) <= target < start_location (table_at table (S k)) ->
  forall n i : nat, (1 <= i <= S k)%nat -> (S k < i + n)%nat ->
    scan_table table target n i (start_location (table_at table (i - 1)))
    = (line_number (table_at table k), start_location (table_at table k)).
Proof.
  intros Hinc Hk Ht. induction n as [|n IH]; intros i Hi Hn; [lia|].
  simpl. destruct (decide (i = S k)) as [->|Hne].
  - replace (S k - 1)%nat with k by lia.
    replace (target <? _) with true by (symmetry; apply Z.ltb_lt; lia).
    replace (target >=? _) with true by (symmetry; apply Z.geb_le; lia).
    reflexivity.
  - assert (start_location (table_at table i) <= start_location (table_at table k))
      by (apply increasing_le; [assumption | lia | lia]).
    replace (target <? _) with false by (symmetry; apply Z.ltb_ge; lia).
    simpl. specialize (IH (S i)). replace (S i - 1)%nat with i in IH by lia.
    apply IH; lia.
Qed.

(** At or past the last start no iteration matches and [last] ends as
    the start of the last entry. *)
Lemma scan_table_miss (table : list jvmtiLineNumberEntry) (target : Z) :
  increasing table ->
  start_location (table_at table (List.length table - 1)) <= target ->
  forall n i : nat, (1 <= i)%nat -> (i + n = List.length table)%nat ->
    scan_table table target n i (start_location (table_at table (i - 1)))
    = (-1, start_location (table_at table (List.length table - 1))).
Proof.
  intros Hinc Ht. induction n as [|n IH]; intros i Hi Hn.
  - simpl. replace (i - 1)%nat with (List.length table - 1)%nat by lia. reflexivity.
  - simpl.
    assert (start_location (table_at table i)
            <= start_location (table_at table (List.length table - 1)))
      by (apply increasing_le; [assumption | lia | lia]).
    replace (target <? _) with false by (symmetry; apply Z.ltb_ge; lia).
    simpl. specialize (IH (S i)). replace (S i - 1)%nat with i in IH by lia.
    apply IH; lia.
Qed.

(** What the loop returns is [-1] or a line of the table. *)
Lemma scan_table_line (table : list jvmtiLineNumberEntry) (target : Z) :
  forall n i last, (1 <= i)%nat -> (i + n <= List.length table)%nat ->
    fst (scan_table table target n i last) = -1
    \/ exists e, In e table /\ fst (scan_table table target n i last) = line_number e.
Proof.
  induction n as [|n IH]; intros i last Hi Hn; simpl; [now left|].
  destruct (_ && _).
  - right. exists (table_at table (i - 1)). split; [|reflexivity].
    apply nth_In. lia.
  - apply IH; lia.
Qed.

(** C5 (as amended).  A negative location is returned as it is, so the
    result is the native-method value [-3], which differs from the
    no-line value [-1], exactly when the location is [-3]; a location
    that is not negative gives [-3] only if the table of the method
    lists that value as a line. *)
Theorem getLineNumber_negative (jvmti : Jvmti) (m : jmethodID) (target : Z) :
  in_jint target ->
  (target < 0 -> getLineNumber jvmti m target = target)
  /\ (target < 0 ->
      (getLineNumber jvmti m target = NATIVE_METHOD_LINENO <-> target = -3))
  /\ (0 <= target -> getLineNumber jvmti m target = NATIVE_METHOD_LINENO ->
      exists table e, GetLineNumberTable jvmti m = Some table
                      /\ In e table /\ line_number e = -3)
  /\ NATIVE_METHOD_LINENO <> -1.
Proof.
  intros Hr.
  assert (Hneg : target < 0 -> getLineNumber jvmti m target = target).
  { intros Hlt. unfold getLineNumber.
    replace (target <? 0) with true by (symmetry; apply Z.ltb_lt; lia).
    now apply to_jint_id. }
  split; [exact Hneg|]. split; [|split].
  - intros Hlt. rewrite (Hneg Hlt). unfold NATIVE_METHOD_LINENO. tauto.
  - intros Hge. unfold getLineNumber, NATIVE_METHOD_LINENO.
    replace (target <? 0) with false by (symmetry; apply Z.ltb_ge; lia).
    destruct (GetLineNumberTable jvmti m) as [table|]; [|discriminate].
    destruct (Nat.eqb_spec (List.length table) 1) as [H1|H1].
    + intros He. exists table, (table_at table 0). split; [reflexivity|].
      split; [apply nth_In; lia | exact He].
    + destruct (Nat.ltb_spec 1 (List.length table)) as [H2|H2]; [|discriminate].
      pose proof (scan_table_line table target (List.length table - 1) 1
                    (start_location (table_at table 0))) as Hs.
      destruct (scan_table _ _ _ _ _) as [line last]. simpl in Hs.
      destruct ((line =? -1) && (target >=? last)) eqn:Hc.
      * intros He. exists table, (table_at table (List.length table - 1)).
        split; [reflexivity|]. split; [apply nth_In; lia | exact He].
      * intros He. destruct Hs as [Hs|(e & Hin & Hs)]; [lia| lia |lia|].
        exists table, e. split; [reflexivity|]. split; [exact Hin | lia].
  - unfold NATIVE_METHOD_LINENO. lia.
Qed.

Lemma getLineNumber_negative_witness :
  in_jint (-3)
  /\ getLineNumber (demo_jvmti demo_table prompt) 1 (-3) = NATIVE_METHOD_LINENO.
Proof.
  assert (H : in_jint (-3)) by (unfold in_jint, jint_min, jint_max; lia).
  split; [exact H|].
  apply (proj1 (proj2 (getLineNumber_negative (demo_jvmti demo_table prompt) 1 (-3) H)));
    [lia | reflexivity].
Defined.

(** C5 as stated fails at location [-1]: it is negative, and the result
    is [-1], the value that also stands for no line. *)
Lemma getLineNumber_minus_one :
  -1 < 0
  /\ getLineNumber (demo_jvmti demo_table prompt) 1 (-1) = -1
  /\ getLineNumber (demo_jvmti demo_table prompt) 1 (-1) <> NATIVE_METHOD_LINENO.
Proof. repeat split; (reflexivity || discriminate). Qed.

(** The result for a location at least zero, entry by entry.  The loop
    leaves [-1] in [line_number] while it has found no entry, and the
    test after the loop reads that value. *)
Lemma getLineNumber_scan (jvmti : Jvmti) (m : jmethodID)
    (table : list jvmtiLineNumberEntry) (target : Z) :
  GetLineNumberTable jvmti m = Some table -> 0 <= target ->
  (forall e, table = [e] -> getLineNumber jvmti m target = line_number e)
  /\ ((1 < List.length table)%nat -> increasing table ->
      (forall i : nat, (S i < List.length table)%nat ->
         start_location (table_at table i) <= target
           < start_location (table_at table (S i)) ->
         getLineNumber jvmti m target =
           if line_number (table_at table i) =? -1
           then line_number (table_at table (List.length table - 1))
           else line_number (table_at table i))
      /\ (start_location (table_at table (List.length table - 1)) <= target ->
          getLineNumber jvmti m target
          = line_number (table_at table (List.length table - 1)))).
Proof.
  intros Htab Hge. unfold getLineNumber. rewrite Htab.
  replace (target <? 0) with false by (symmetry; apply Z.ltb_ge; lia).
  split.
  - intros e ->. reflexivity.
  - intros Hlen Hinc.
    destruct (Nat.eqb_spec (List.length table) 1) as [H1|_]; [lia|].
    destruct (Nat.ltb_spec 1 (List.length table)) as [_|H2]; [|lia].
    split.
    + intros i Hi Ht.
      pose proof (scan_table_hit table target i Hinc Hi Ht
                    (List.length table - 1) 1) as Hs.
      simpl in Hs. rewrite Hs by lia.
      replace (target >=? _) with true by (symmetry; apply Z.geb_le; lia).
      rewrite andb_true_r. reflexivity.
    + intros Ht.
      pose proof (scan_table_miss table target Hinc Ht
                    (List.length table - 1) 1) as Hs.
      simpl in Hs. rewrite Hs by lia. simpl.
      replace (target >=? _) with true by (symmetry; apply Z.geb_le; lia).
      reflexivity.
Qed.

(** C6.  With location at least zero: a table of one entry gives the
    line of that entry whatever the location; in a table of more
    entries with increasing starts, a location from the start of entry
    [i] up to the start of entry [i + 1] gives the line of entry [i],
    the lines being those of a class file; a location at or past the
    last start gives the line of the last entry. *)
Theorem getLineNumber_table (jvmti : Jvmti) (m : jmethodID)
    (table : list jvmtiLineNumberEntry) (target : Z) :
  GetLineNumberTable jvmti m = Some table -> 0 <= target ->
  (forall e, table = [e] -> getLineNumber jvmti m target = line_number e)
  /\ ((1 < List.length table)%nat -> increasing table ->
      (class_file_lines table ->
       forall i : nat, (S i < List.length table)%nat ->
         start_location (table_at table i) <= target
           < start_location (table_at table (S i)) ->
         getLineNumber jvmti m target = line_number (table_at table i))
      /\ (start_location (table_at table (List.length table - 1)) <= target ->
          getLineNumber jvmti m target
          = line_number (table_at table (List.length table - 1)))).
Proof.
  intros Htab Hge.
  destruct (getLineNumber_scan jvmti m table target Htab Hge) as [Hone Hmore].
  split; [exact Hone|]. intros Hlen Hinc.
  destruct (Hmore Hlen Hinc) as [Hin Hlast]. split; [|exact Hlast].
  intros Hlines i Hi Ht. rewrite (Hin i Hi Ht).
  assert (Hline : 0 <= line_number (table_at table i) <= 65535)
    by (apply Hlines, nth_In; lia).
  destruct (Z.eqb_spec (line_number (table_at table i)) (-1)) as [He|_];
    [lia | reflexivity].
Qed.

Lemma demo_table_increasing : increasing demo_table.
Proof. intros i Hi. destruct i as [|[|i]]; simpl in *; lia. Qed.

Lemma demo_table_lines : class_file_lines demo_table.
Proof.
  intros e He. simpl in He.
  destruct He as [<-|[<-|[<-|[]]]]; simpl; lia.
Qed.

Lemma getLineNumber_table_witness :
  getLineNumber (demo_jvmti demo_table prompt) 1 8 = 20
  /\ getLineNumber (demo_jvmti demo_table prompt) 1 12 = 30.
Proof.
  pose proof (getLineNumber_table (demo_jvmti demo_table prompt) 1 demo_table 8
                eq_refl ltac:(lia)) as [_ H8].
  pose proof (getLineNumber_table (demo_jvmti demo_table prompt) 1 demo_table 12
                eq_refl ltac:(lia)) as [_ H12].
  split.
  - apply (proj1 (H8 ltac:(simpl; lia) demo_table_increasing) demo_table_lines 1%nat);
      simpl; lia.
  - apply (proj2 (H12 ltac:(simpl; lia) demo_table_increasing)). simpl. lia.
Defined.

(** ** Class names *)

Lemma length_replace_slashes (s : string) :
  String.length (replace_slashes s) = String.length s.
Proof. induction s as [|c s IH]; simpl; congruence. Qed.

Lemma get_replace_slashes (s : string) (i : nat) :
  String.get i (replace_slashes s) = option_map replace_slash (String.get i s).
Proof.
  revert i. induction s as [|c s IH]; intros i; simpl; [reflexivity|].
  destruct i; simpl; [reflexivity | apply IH].
Qed.

Lemma length_substring (s : string) (i n : nat) :
  (i + n <= String.length s)%nat -> String.length (substring i n s) = n.
Proof.
  revert i n. induction s as [|c s IH]; intros i n H; simpl in *.
  - destruct i, n; simpl; lia.
  - destruct i; simpl.
    + destruct n; simpl; [reflexivity|]. rewrite IH; lia.
    + apply IH. lia.
Qed.

Lemma get_substring (s : string) (i n j : nat) :
  (j < n)%nat -> String.get j (substring i n s) = String.get (i + j) s.
Proof.
  revert i n j. induction s as [|c s IH]; intros i n j H; simpl.
  - destruct i, n; simpl; reflexivity || lia.
  - destruct i; simpl.
    + destruct n; [lia|]. simpl. destruct j; [reflexivity|].
      rewrite (IH 0%nat n j) by lia. reflexivity.
    + apply IH. exact H.
Qed.

Lemma char_at_get (s : string) (i : nat) (c : ascii) :
  c <> zero -> (char_at s i = c <-> String.get i s = Some c).
Proof.
  unfold char_at. intros Hc. destruct (String.get i s); split; congruence.
Qed.

Lemma fixClassSignature_cases (s : string) :
  (wrapped s /\ fixClassSignature s
                = replace_slashes (substring 1 (String.length s - 2) s))
  \/ (~ wrapped s /\ fixClassSignature s = s).
Proof.
  unfold fixClassSignature, wrapped.
  destruct (Nat.leb_spec (String.length s) 2) as [Hl|Hl]; simpl.
  { right. split; [lia | reflexivity]. }
  destruct (Ascii.eqb_spec (char_at s 0) "L") as [H0|H0]; simpl.
  2:{ right. split; [|reflexivity]. intros (_ & H & _). apply H0.
      apply char_at_get; [discriminate | exact H]. }
  destruct (Ascii.eqb_spec (char_at s (String.length s - 1)) ";") as [H1|H1]; simpl.
  2:{ right. split; [|reflexivity]. intros (_ & _ & H). apply H1.
      apply char_at_get; [discriminate | exact H]. }
  left. split; [|reflexivity].
  split; [lia|]. split; apply char_at_get; (discriminate || assumption).
Qed.

Lemma append_assoc (a b c : string) : (a +:+ b) +:+ c = a +:+ b +:+ c.
Proof.
  induction a as [|x a IH]; [reflexivity|].
  change (String x ((a +:+ b) +:+ c) = String x (a +:+ b +:+ c)). now f_equal.
Qed.

Lemma length_append (a b : string) :
  String.length (a +:+ b) = (String.length a + String.length b)%nat.
Proof. induction a as [|c a IH]; simpl; [reflexivity | now rewrite IH]. Qed.

Lemma get_last_append (a : string) (c : ascii) :
  String.get (String.length a) (a +:+ String c EmptyString) = Some c.
Proof. induction a as [|d a IH]; simpl; [reflexivity | exact IH]. Qed.

Lemma substring_wrap (body : string) :
  substring 1 (String.length body) (String "L" (body +:+ ";")) = body.
Proof.
  simpl. induction body as [|c b IH]; simpl; [reflexivity | now rewrite IH].
Qed.

(** C7.  A name [L...;] of three characters or more loses its first and
    its last character and has every slash of the rest turned into a
    dot; any other name is left as it is; and normalizing a normalized
    name changes nothing, for every name in which a semicolon can only
    be the last character, as in every class signature of the runtime. *)
Theorem fixClassSignature_spec :
  (forall body : string, body <> EmptyString ->
     fixClassSignature ("L" +:+ body +:+ ";") = replace_slashes body)
  /\ (forall (body : string) (i : nat),
        String.get i (replace_slashes body)
        = option_map (fun c => if Ascii.eqb c "/" then "."%char else c)
                     (String.get i body))
  /\ (forall s : string, ~ wrapped s -> fixClassSignature s = s)
  /\ (forall s : string,
        (forall i : nat, (S i < String.length s)%nat ->
                         String.get i s <> Some ";"%char) ->
        fixClassSignature (fixClassSignature s) = fixClassSignature s).
Proof.
  split; [|split; [|split]].
  - intros body Hb.
    destruct (fixClassSignature_cases ("L" +:+ body +:+ ";")) as [[_ ->]|[Hn _]].
    + change ("L" +:+ body +:+ ";") with (String "L" (body +:+ ";")).
      replace (String.length (String "L" (body +:+ ";")) - 2)%nat
        with (String.length body)
        by (cbn [String.length]; rewrite length_append; simpl; lia).
      now rewrite substring_wrap.
    + exfalso. apply Hn. unfold wrapped.
      change ("L" +:+ body +:+ ";") with (String "L" (body +:+ ";")).
      cbn [String.length]. rewrite length_append. cbn [String.length].
      split; [destruct body; [congruence | simpl; lia]|]. split; [reflexivity|].
      replace (S (String.length body + 1) - 1)%nat with (S (String.length body)) by lia.
      cbn [String.get]. apply get_last_append.
  - intros body i. apply get_replace_slashes.
  - intros s Hn. destruct (fixClassSignature_cases s) as [[Hw _]|[_ ->]]; tauto.
  - intros s Hsemi.
    destruct (fixClassSignature_cases s) as [[Hw Hs]|[_ Hs]]; [|now rewrite !Hs].
    destruct (fixClassSignature_cases (fixClassSignature s)) as [[Hw' _]|[_ H]];
      [exfalso | exact H].
    destruct Hw as (Hlen & _ & _). destruct Hw' as (Hlen' & _ & Hlast).
    rewrite Hs in Hlen', Hlast.
    rewrite length_replace_slashes, length_substring in Hlen', Hlast by lia.
    rewrite get_replace_slashes, get_substring in Hlast by lia.
    specialize (Hsemi (1 + (String.length s - 2 - 1))%nat ltac:(lia)).
    destruct (String.get _ s) as [c|]; [|discriminate].
    simpl in Hlast. unfold replace_slash in Hlast.
    destruct (Ascii.eqb_spec c "/") as [->|Hc]; [discriminate | congruence].
Qed.

Lemma fixClassSignature_spec_witness :
  fixClassSignature "Ljava/lang/String;" = "java.lang.String"
  /\ fixClassSignature "[I" = "[I"
  /\ fixClassSignature (fixClassSignature "Ljava/lang/String;")
     = fixClassSignature "Ljava/lang/String;".
Proof.
  destruct fixClassSignature_spec as (Hstrip & _ & Hnoop & Hidem).
  split; [|split].
  - apply (Hstrip "java/lang/String"). discriminate.
  - apply (Hnoop "[I"). unfold wrapped. simpl. lia.
  - apply (Hidem "Ljava/lang/String;"). intros i Hi.
    do 17 (destruct i as [|i]; [discriminate|]). simpl in Hi. lia.
Defined.

(** ** The state monad and the log *)

Lemma bind_run {A B : Type} (m : M A) (f : A -> M B) (w w' : World) (a : A) :
  m w = (a, w') -> (m ≫= f) w = f a w'.
Proof. intros H. unfold mbind, M_bind. now rewrite H. Qed.

Lemma log_add_nil (w : World) : log_add w [] = w.
Proof. destruct w. unfold log_add. simpl. now rewrite app_nil_r. Qed.

Lemma written_app (f : Stream) (a b : list Event) :
  written f (a ++ b) = written f a ++ written f b.
Proof. unfold written. apply omap_app. Qed.

Lemma written_map_same (f : Stream) (l : list string) :
  written f (map (EWrite f) l) = l.
Proof. induction l as [|s l IH]; [reflexivity|]. destruct f; simpl; now rewrite IH. Qed.

Lemma written_poll_events (f : Stream) (es : list Event) :
  Forall poll_event es -> written f es = [].
Proof.
  induction 1 as [|e es He _ IH]; [reflexivity|].
  destruct e; try contradiction; exact IH.
Qed.

(** ** Rendering *)

Lemma printCallFrame_line (jvmti : Jvmti) (f : AsyncCallFrame) (w : World) :
  printCallFrame jvmti (method f) (lineno f) w
  = (tt, log_add w [EWrite Out (frame_line jvmti f)]).
Proof.
  unfold printCallFrame, frame_line, resolve, class_text, method_text, source_file,
    or_unknown, fprintf.
  destruct (GetMethodDeclaringClass jvmti (method f)) as [clazz|];
    [destruct (GetClassSignature jvmti clazz), (GetSourceFileName jvmti clazz)|];
    destruct (GetMethodName jvmti (method f));
    destruct (getLineNumber jvmti (method f) (lineno f) =? NATIVE_METHOD_LINENO);
    try destruct (getLineNumber jvmti (method f) (lineno f) <=? 0);
    cbn [location_text]; rewrite ?append_assoc; reflexivity.
Qed.

Lemma for_each_frames (jvmti : Jvmti) (l : list nat) (w : World) :
  for_each l (fun i => frame ← read_frame i ;
                       printCallFrame jvmti (method frame) (lineno frame)) w
  = (tt, log_add w (flat_map (fun i => [ESlotRead i;
                      EWrite Out (frame_line jvmti (frame_at (x_frames w) i))]) l)).
Proof.
  revert w. induction l as [|i l IH]; intros w.
  - simpl. now rewrite log_add_nil.
  - cbn [for_each].
    erewrite bind_run; [|erewrite bind_run; [apply printCallFrame_line | reflexivity]].
    rewrite IH. unfold log_add. simpl. rewrite <- !app_assoc. reflexivity.
Qed.

Lemma printThreadDump_log (jvmti : Jvmti) (thread : jthread) (w : World) :
  printThreadDump jvmti thread w
  = (tt, log_add w (print_events jvmti thread (x_trace_num_frames w) (x_frames w))).
Proof.
  unfold printThreadDump, print_events, header_chunks.
  assert (H : forall w0 : World,
    (match GetThreadState jvmti thread with
     | Some state => match GetThreadInfo jvmti thread with
                     | Some info => fprintf Out (thread_header info state)
                     | None => mret tt
                     end
     | None => mret tt
     end) w0
    = (tt, log_add w0 (map (EWrite Out)
             match GetThreadState jvmti thread with
             | Some state => match GetThreadInfo jvmti thread with
                             | Some info => [thread_header info state]
                             | None => []
                             end
             | None => []
             end))).
  { intros w0. destruct (GetThreadState jvmti thread), (GetThreadInfo jvmti thread);
      simpl; unfold mret, M_ret; rewrite ?log_add_nil; reflexivity. }
  erewrite bind_run; [|apply H].
  erewrite bind_run; [|reflexivity].
  erewrite bind_run; [|apply for_each_frames].
  unfold fprintf, emit, log_add. simpl. rewrite <- !app_assoc. reflexivity.
Qed.

Lemma written_print_events (jvmti : Jvmti) (thread : jthread) (n : Z)
    (frames : list AsyncCallFrame) :
  written Out (print_events jvmti thread n frames) = thread_block jvmti thread n frames
  /\ written Stderr (print_events jvmti thread n frames) = [].
Proof.
  unfold print_events, thread_block. rewrite !written_app.
  assert (Hh : forall l, written Stderr (map (EWrite Out) l) = [])
    by (induction l; [reflexivity | assumption]).
  rewrite written_map_same, Hh.
  assert (Hf : forall l, written Out (flat_map (fun i => [ESlotRead i;
                 EWrite Out (frame_line jvmti (frame_at frames i))]) l)
                = map (fun i => frame_line jvmti (frame_at frames i)) l
                /\ written Stderr (flat_map (fun i => [ESlotRead i;
                 EWrite Out (frame_line jvmti (frame_at frames i))]) l) = []).
  { induction l as [|i l [IH1 IH2]]; [split; reflexivity|].
    split; simpl; [now f_equal | assumption]. }
  destruct (Hf (seq 0 (Z.to_nat n))) as [-> ->]. split; reflexivity.
Qed.

(** ** Polling *)

Lemma filter_none {A : Type} (f : A -> bool) (l : list A) :
  Forall (fun x => f x = false) l ->
  List.filter f l = [] /\ List.filter (fun x => negb (f x)) l = l.
Proof.
  induction 1 as [|x l Hx _ [IH1 IH2]]; [split; reflexivity|].
  simpl. rewrite Hx, IH1, IH2. split; reflexivity.
Qed.

Lemma run_handlers_idle (jvmti : Jvmti) (w : World) :
  Forall (fun p => is_due (polls w) p = false) (in_flight w) ->
  run_handlers jvmti w
  = (tt, {| tags := tags w; x_trace_jni := x_trace_jni w;
            x_trace_num_frames := x_trace_num_frames w; x_frames := x_frames w;
            x_trace_running := x_trace_running w; x_trace_lock := x_trace_lock w;
            in_flight := in_flight w; polls := N.succ (polls w); sent := sent w;
            log := log w |}).
Proof.
  intros H. unfold run_handlers. destruct (filter_none _ _ H) as [-> ->]. reflexivity.
Qed.

(** While no handler is due and the flag is set, the loop only polls. *)
Lemma spin_timeout (jvmti : Jvmti) (n : nat) (w : World) :
  x_trace_running w = true ->
  Forall (fun p => (polls w + N.of_nat n <= snd p)%N) (in_flight w) ->
  spin jvmti n w = (false, ticked w n).
Proof.
  revert w. induction n as [|n IH]; intros w Hflag Hdue.
  - destruct w. unfold ticked. simpl in *. rewrite N.add_0_r, app_nil_r. reflexivity.
  - cbn [spin].
    erewrite bind_run; [|apply run_handlers_idle].
    2:{ eapply Forall_impl; [exact Hdue|]. intros p Hp. unfold is_due.
        cbv beta in Hp. rewrite Nat2N.inj_succ in Hp. apply N.leb_gt.
        destruct p as [x y]. cbn [snd] in *. lia. }
    erewrite bind_run; [|reflexivity]. cbn [x_trace_running]. rewrite Hflag.
    cbn [negb]. rewrite IH.
    + unfold ticked. cbn [tags x_trace_jni x_trace_num_frames x_frames x_trace_running
        x_trace_lock in_flight polls sent log repeat].
      rewrite <- app_assoc, Nat2N.inj_succ, Hflag. cbn [app]. do 2 f_equal. lia.
    + reflexivity.
    + cbn [in_flight polls]. eapply Forall_impl; [exact Hdue|]. intros p Hp.
      cbv beta in Hp. rewrite Nat2N.inj_succ in Hp.
      destruct p as [x y]. cbn [snd] in *. lia.
Qed.

Lemma spin_add (jvmti : Jvmti) (a b : nat) (w : World) :
  spin jvmti (a + b) w
  = let '(done, w1) := spin jvmti a w in
    if done then (true, w1) else spin jvmti b w1.
Proof.
  revert w. induction a as [|a IH]; intros w; [reflexivity|].
  cbn [Nat.add spin]. unfold mbind, M_bind.
  destruct (run_handlers jvmti w) as [[] w1].
  destruct (test_and_set w1) as [old w2].
  destruct old; cbn [negb]; [apply IH | reflexivity].
Qed.

(** When the oldest signal in flight is the only one due, its handler
    runs and the poll that follows ends the loop. *)
Lemma spin_fire (jvmti : Jvmti) (n : nat) (tid : pthread_t) (due : N)
    (rest : list (pthread_t * N)) (w : World) :
  in_flight w = (tid, due) :: rest -> (due <= polls w)%N ->
  Forall (fun p => is_due (polls w) p = false) rest ->
  spin jvmti (S n) w
  = (true, {| tags := tags w; x_trace_jni := x_trace_jni w;
       x_trace_num_frames := fst (AsyncGetCallTrace jvmti (x_trace_jni w) MAX_FRAMES tid);
       x_frames := deposited jvmti (x_trace_jni w) tid (x_frames w);
       x_trace_running := true; x_trace_lock := x_trace_lock w;
       in_flight := rest; polls := N.succ (polls w); sent := sent w;
       log := log w ++ [EHandler tid; ETestAndSet false] |}).
Proof.
  intros Hin Hdue Hrest. cbn [spin]. unfold mbind, M_bind, run_handlers.
  assert (Hd : is_due (polls w) (tid, due) = true) by (apply N.leb_le; exact Hdue).
  rewrite Hin. cbn [List.filter]. rewrite Hd.
  destruct (filter_none _ _ Hrest) as [-> ->].
  cbn [negb for_each]. unfold mbind, M_bind, mret, M_ret, signalHandler. cbn [fst].
  unfold deposited, emit. cbn [x_trace_jni].
  destruct (AsyncGetCallTrace jvmti (x_trace_jni w) MAX_FRAMES tid) as [k fs].
  simpl. rewrite <- app_assoc. reflexivity.
Qed.

Lemma spin_done (jvmti : Jvmti) (n : nat) (tid : pthread_t) (d : N) (w : World) :
  in_flight w = [(tid, (polls w + d)%N)] -> x_trace_running w = true ->
  (d < N.of_nat n)%N ->
  spin jvmti n w
  = (true, {| tags := tags w; x_trace_jni := x_trace_jni w;
       x_trace_num_frames := fst (AsyncGetCallTrace jvmti (x_trace_jni w) MAX_FRAMES tid);
       x_frames := deposited jvmti (x_trace_jni w) tid (x_frames w);
       x_trace_running := true; x_trace_lock := x_trace_lock w;
       in_flight := []; polls := polls w + d + 1; sent := sent w;
       log := log w ++ repeat (ETestAndSet true) (N.to_nat d)
                    ++ [EHandler tid; ETestAndSet false] |}).
Proof.
  intros Hin Hflag Hd.
  replace n with (N.to_nat d + S (n - N.to_nat d - 1))%nat by lia.
  rewrite spin_add, spin_timeout.
  - erewrite spin_fire; [|unfold ticked; cbn [in_flight]; exact Hin
                         |unfold ticked; cbn [polls]; lia
                         |constructor].
    unfold ticked. simpl. rewrite <- app_assoc. do 2 f_equal. lia.
  - exact Hflag.
  - rewrite Hin. constructor; [|constructor]. cbn [snd]. lia.
Qed.

(** ** What the spin loop leaves alone *)

Lemma for_each_handlers (jvmti : Jvmti) (l : list (pthread_t * N)) (w : World) :
  let w' := snd (for_each l (fun p => signalHandler jvmti (fst p)) w) in
  tags w' = tags w /\ x_trace_lock w' = x_trace_lock w /\ sent w' = sent w
  /\ log w' = log w ++ map (fun p => EHandler (fst p)) l.
Proof.
  revert w. induction l as [|p l IH]; intros w.
  - simpl. rewrite app_nil_r. auto.
  - cbn [for_each]. unfold mbind, M_bind.
    destruct (signalHandler jvmti (fst p) w) as [[] w1] eqn:E.
    specialize (IH w1). cbv zeta in IH. destruct IH as (H1 & H2 & H3 & H4).
    unfold signalHandler in E.
    destruct (AsyncGetCallTrace jvmti (x_trace_jni w) MAX_FRAMES (fst p)) as [k fs].
    injection E as <-. cbv zeta. rewrite H1, H2, H3, H4. simpl.
    rewrite <- app_assoc. auto.
Qed.

Lemma run_handlers_frame (jvmti : Jvmti) (w : World) :
  let w' := snd (run_handlers jvmti w) in
  tags w' = tags w /\ x_trace_lock w' = x_trace_lock w /\ sent w' = sent w
  /\ exists es, log w' = log w ++ es /\ Forall poll_event es
       /\ (x_trace_running w' = x_trace_running w \/ exists tid, In (EHandler tid) es).
Proof.
  unfold run_handlers.
  match goal with |- context [for_each ?l ?f ?w0] =>
    destruct (for_each_handlers jvmti l w0) as (H1 & H2 & H3 & H4);
    destruct l as [|p l'] eqn:Hl end.
  - cbv zeta. simpl. repeat split. exists []. rewrite app_nil_r.
    repeat split; [constructor | now left].
  - cbv zeta. rewrite H1, H2, H3, H4. simpl. repeat split.
    eexists. split; [reflexivity|]. split.
    + constructor; [exact I|]. apply Forall_map, Forall_forall. intros; exact I.
    + right. exists (fst p). now left.
Qed.

(** The loop only polls and lets handlers run, and it is left with
    [done] only by a poll that finds the flag clear; when the flag was
    set at the start, a handler has run before that poll. *)
Lemma spin_frame (jvmti : Jvmti) (n : nat) (w w' : World) (done : bool) :
  spin jvmti n w = (done, w') ->
  tags w' = tags w /\ x_trace_lock w' = x_trace_lock w /\ sent w' = sent w
  /\ exists es, log w' = log w ++ es /\ Forall poll_event es
       /\ (done = true ->
           exists pre, es = pre ++ [ETestAndSet false]
             /\ (x_trace_running w = true -> exists tid, In (EHandler tid) pre)).
Proof.
  revert w. induction n as [|n IH]; intros w Hs.
  - injection Hs as <- <-. repeat split. exists []. rewrite app_nil_r.
    repeat split; [constructor | discriminate].
  - cbn [spin] in Hs. unfold mbind, M_bind in Hs.
    pose proof (run_handlers_frame jvmti w) as Hr. cbv zeta in Hr.
    destruct (run_handlers jvmti w) as [[] w1]. cbn [snd] in Hr.
    destruct Hr as (H1 & H2 & H3 & es1 & H4 & H5 & H6).
    unfold test_and_set, emit in Hs.
    destruct (x_trace_running w1) eqn:Hflag; cbn [negb] in Hs.
    + apply IH in Hs. destruct Hs as (I1 & I2 & I3 & es2 & I4 & I5 & I6).
      cbn [tags x_trace_lock sent log x_trace_running] in *.
      rewrite I1, I2, I3, I4, H1, H2, H3, H4. repeat split.
      exists (es1 ++ [ETestAndSet true] ++ es2).
      split; [now rewrite <- !app_assoc|]. split.
      * apply Forall_app. split; [exact H5|]. apply Forall_app. split; [|exact I5].
        repeat constructor.
      * intros Hd. destruct (I6 Hd) as (pre & -> & Hh).
        exists (es1 ++ [ETestAndSet true] ++ pre). split; [now rewrite <- !app_assoc|].
        intros _. destruct (Hh eq_refl) as [tid Hin]. exists tid.
        apply in_or_app. right. apply in_or_app. now right.
    + injection Hs as <- <-. cbn [tags x_trace_lock sent log].
      rewrite H1, H2, H3, H4.
      repeat split. exists (es1 ++ [ETestAndSet false]).
      split; [now rewrite <- !app_assoc|]. split.
      * apply Forall_app. split; [exact H5|]. repeat constructor.
      * intros _. exists es1. split; [reflexivity|]. intros Hw.
        destruct H6 as [H6|H6]; [congruence | exact H6].
Qed.

(** ** The ways through [dumpThread] *)

(** From the start of [dumpThread] to the signal, whatever follows. *)
Lemma dumpThread_prefix (jvmti : Jvmti) (thread : jthread) (w : World)
    (A : M Outcome) (K : ThreadTag -> M Outcome) :
  (RawMonitorEnter ;;
   tag ← GetTag jvmti thread ;
   match tag with
   | None => A
   | Some tag =>
       arm_slot (jni tag) ;;
       _ ← test_and_set ;
       pthread_kill jvmti (thread_id tag) ;;
       K tag
   end) w
  = match fst (GetTag jvmti thread w) with
    | None => A (snd (RawMonitorEnter w))
    | Some tag => K tag (signalled jvmti tag w)
    end.
Proof.
  unfold mbind, M_bind, RawMonitorEnter, GetTag, emit. cbn [fst snd tags].
  destruct (if GetTag_ok jvmti thread then tags w !! thread else None) as [tag|];
    [|reflexivity].
  unfold arm_slot, emit.
  cbn [fst snd tags x_trace_jni x_trace_num_frames x_frames x_trace_running
       x_trace_lock in_flight polls sent log].
  unfold test_and_set, emit.
  cbn [fst snd tags x_trace_jni x_trace_num_frames x_frames x_trace_running
       x_trace_lock in_flight polls sent log].
  unfold pthread_kill, emit.
  cbn [fst snd tags x_trace_jni x_trace_num_frames x_frames x_trace_running
       x_trace_lock in_flight polls sent log].
  f_equal. unfold signalled. rewrite <- !app_assoc. reflexivity.
Qed.

Lemma dumpThread_unfold (jvmti : Jvmti) (thread : jthread) (w : World) :
  dumpThread jvmti thread w
  = match fst (GetTag jvmti thread w) with
    | None => (Unavailable, log_add w [EMonitorEnter; EMonitorExit])
    | Some tag =>
        let '(done, w') := spin jvmti (N.to_nat SPIN_LIMIT) (signalled jvmti tag w) in
        if (done : bool)
        then (Captured, log_add (left_monitor w')
                          (print_events jvmti thread (x_trace_num_frames w') (x_frames w')))
        else (Timeout, log_add (left_monitor w') [EWrite Stderr timeout_warning])
    end.
Proof.
  unfold dumpThread.
  generalize (N.to_nat SPIN_LIMIT). intros n.
  etransitivity;
    [exact (dumpThread_prefix jvmti thread w (RawMonitorExit ;; mret Unavailable)
              (fun _ => done ← spin jvmti n ;
                        RawMonitorExit ;;
                        if (done : bool)
                        then printThreadDump jvmti thread ;; mret Captured
                        else fprintf Stderr ("WARNING: AStack trace did not complete" +:+ nl) ;;
                             mret Timeout))|].
  destruct (fst (GetTag jvmti thread w)) as [tag|].
  - generalize (signalled jvmti tag w). intros w4.
    unfold mbind at 1, M_bind at 1. destruct (spin jvmti n w4) as [done w'].
    unfold mbind at 1, M_bind at 1.
    change (RawMonitorExit w') with (tt, left_monitor w'). destruct done.
    + unfold mbind, M_bind. rewrite printThreadDump_log. reflexivity.
    + reflexivity.
  - unfold log_add, RawMonitorExit, RawMonitorEnter, emit, mbind, M_bind, mret, M_ret.
    cbn [snd tags x_trace_jni x_trace_num_frames x_frames x_trace_running
         x_trace_lock in_flight polls sent log Nat.pred].
    rewrite <- app_assoc. reflexivity.
Qed.

Lemma dumpThread_untagged (jvmti : Jvmti) (thread : jthread) (w : World) :
  fst (GetTag jvmti thread w) = None ->
  dumpThread jvmti thread w = (Unavailable, log_add w [EMonitorEnter; EMonitorExit]).
Proof. intros H. rewrite dumpThread_unfold, H. reflexivity. Qed.

Lemma dumpThread_tagged (jvmti : Jvmti) (thread : jthread) (tag : ThreadTag) (w : World) :
  fst (GetTag jvmti thread w) = Some tag ->
  dumpThread jvmti thread w
  = let '(done, w') := spin jvmti (N.to_nat SPIN_LIMIT) (signalled jvmti tag w) in
    if (done : bool)
    then (Captured, log_add (left_monitor w')
                      (print_events jvmti thread (x_trace_num_frames w') (x_frames w')))
    else (Timeout, log_add (left_monitor w') [EWrite Stderr timeout_warning]).
Proof. intros H. rewrite dumpThread_unfold, H. reflexivity. Qed.

Lemma sink_log_add (w : World) (es : list Event) :
  sink (log_add w es) = sink w ++ written Out es.
Proof. unfold sink. simpl. apply written_app. Qed.

Lemma stderr_log_add (w : World) (es : list Event) :
  stderr (log_add w es) = stderr w ++ written Stderr es.
Proof. unfold stderr. simpl. apply written_app. Qed.

(** Every run of [dumpThread], by the way it is left. *)
Lemma dumpThread_frame (jvmti : Jvmti) (thread : jthread) (w w' : World) (o : Outcome) :
  dumpThread jvmti thread w = (o, w') ->
  tags w' = tags w /\ x_trace_lock w' = x_trace_lock w
  /\ match o with
     | Unavailable =>
         fst (GetTag jvmti thread w) = None
         /\ w' = log_add w [EMonitorEnter; EMonitorExit]
     | Timeout =>
         exists tag pre,
           fst (GetTag jvmti thread w) = Some tag
           /\ Forall poll_event pre
           /\ log w' = log w
                ++ [EMonitorEnter; ESlotArm (jni tag);
                    ETestAndSet (x_trace_running w); EKill (thread_id tag)]
                ++ pre ++ [EMonitorExit; EWrite Stderr timeout_warning]
     | Captured =>
         exists tag pre,
           fst (GetTag jvmti thread w) = Some tag
           /\ Forall poll_event pre
           /\ (exists tid, In (EHandler tid) pre)
           /\ log w' = log w
                ++ [EMonitorEnter; ESlotArm (jni tag);
                    ETestAndSet (x_trace_running w); EKill (thread_id tag)]
                ++ pre ++ [ETestAndSet false; EMonitorExit]
                ++ print_events jvmti thread (x_trace_num_frames w') (x_frames w')
     end.
Proof.
  intros Hd. destruct (fst (GetTag jvmti thread w)) as [tag|] eqn:Htag.
  - rewrite (dumpThread_tagged jvmti thread tag w Htag) in Hd.
    destruct (spin jvmti (N.to_nat SPIN_LIMIT) (signalled jvmti tag w)) as [done w5] eqn:Hs.
    apply spin_frame in Hs. destruct Hs as (H1 & H2 & H3 & es & H4 & H5 & H6).
    destruct done; injection Hd as <- <-.
    + destruct (H6 eq_refl) as (pre & -> & Hh).
      apply Forall_app in H5. destruct H5 as [H5 _].
      unfold left_monitor, log_add, RawMonitorExit, emit.
      cbn [snd tags x_trace_lock x_trace_num_frames x_frames log].
      rewrite H1, H2, H4. unfold signalled. cbn [tags x_trace_lock log Nat.pred].
      repeat split. exists tag, pre. repeat split; [exact H5 | exact (Hh eq_refl) |].
      rewrite <- !app_assoc. reflexivity.
    + unfold left_monitor, log_add, RawMonitorExit, emit.
      cbn [snd tags x_trace_lock log].
      rewrite H1, H2, H4. unfold signalled. cbn [tags x_trace_lock log Nat.pred].
      repeat split. exists tag, es. repeat split; [exact H5|].
      rewrite <- !app_assoc. reflexivity.
  - rewrite (dumpThread_untagged jvmti thread w Htag) in Hd.
    injection Hd as <- <-. repeat split.
Qed.

(** No handler is due before the spin bound: the capture times out. *)
Lemma dumpThread_timeout (jvmti : Jvmti) (thread : jthread) (tag : ThreadTag) (w : World) :
  fst (GetTag jvmti thread w) = Some tag ->
  Forall (fun p => (polls w + SPIN_LIMIT <= snd p)%N) (in_flight (signalled jvmti tag w)) ->
  dumpThread jvmti thread w = (Timeout, timed_out jvmti tag w).
Proof.
  intros Htag Hdue. rewrite (dumpThread_tagged jvmti thread tag w Htag).
  rewrite spin_timeout; [reflexivity | reflexivity |].
  rewrite N2Nat.id. exact Hdue.
Qed.

Lemma timed_out_fields (jvmti : Jvmti) (tag : ThreadTag) (w : World) :
  tags (timed_out jvmti tag w) = tags w
  /\ in_flight (timed_out jvmti tag w) = in_flight (signalled jvmti tag w)
  /\ polls (timed_out jvmti tag w) = (polls w + SPIN_LIMIT)%N
  /\ sent (timed_out jvmti tag w) = S (sent w)
  /\ x_frames (timed_out jvmti tag w) = x_frames w.
Proof.
  unfold timed_out, log_add, left_monitor, RawMonitorExit, emit, ticked.
  cbn [snd tags in_flight polls sent x_frames]. rewrite N2Nat.id.
  repeat split.
Qed.

(** A handler that is due when the capture starts runs before the first
    poll: the capture succeeds at once, on what that handler left. *)
Lemma dumpThread_stale (jvmti : Jvmti) (thread : jthread) (tag : ThreadTag)
    (tid : pthread_t) (due : N) (rest : list (pthread_t * N)) (w : World) :
  fst (GetTag jvmti thread w) = Some tag ->
  in_flight (signalled jvmti tag w) = (tid, due) :: rest ->
  (due <= polls w)%N ->
  Forall (fun p => is_due (polls w) p = false) rest ->
  dumpThread jvmti thread w
  = (Captured,
     log_add (answered jvmti tag tid rest w)
       (print_events jvmti thread
          (fst (AsyncGetCallTrace jvmti (jni tag) MAX_FRAMES tid))
          (deposited jvmti (jni tag) tid (x_frames w)))).
Proof.
  intros Htag Hin Hdue Hrest. rewrite (dumpThread_tagged jvmti thread tag w Htag).
  assert (Hn : N.to_nat SPIN_LIMIT = S (N.to_nat (SPIN_LIMIT - 1)))
    by (rewrite <- N2Nat.inj_succ; reflexivity).
  rewrite Hn. generalize (N.to_nat (SPIN_LIMIT - 1)). intros n.
  rewrite (spin_fire jvmti n tid due rest (signalled jvmti tag w) Hin Hdue Hrest).
  unfold left_monitor, answered, log_add, RawMonitorExit, emit, signalled.
  cbn [snd tags x_trace_jni x_trace_num_frames x_frames x_trace_running x_trace_lock
       in_flight polls sent log Nat.pred].
  rewrite <- !app_assoc. reflexivity.
Qed.

(** No signal is in flight and the handler runs within the spin bound:
    the capture succeeds and the slot holds what that handler left. *)
Lemma dumpThread_prompt (jvmti : Jvmti) (thread : jthread) (tag : ThreadTag)
    (d : N) (w : World) :
  fst (GetTag jvmti thread w) = Some tag ->
  in_flight w = [] ->
  handler_delay jvmti (sent w) = Some d ->
  (d < SPIN_LIMIT)%N ->
  dumpThread jvmti thread w
  = (Captured,
     log_add (captured jvmti tag d w)
       (print_events jvmti thread
          (fst (AsyncGetCallTrace jvmti (jni tag) MAX_FRAMES (thread_id tag)))
          (deposited jvmti (jni tag) (thread_id tag) (x_frames w)))).
Proof.
  intros Htag Hin Hdelay Hd. rewrite (dumpThread_tagged jvmti thread tag w Htag).
  rewrite (spin_done jvmti (N.to_nat SPIN_LIMIT) (thread_id tag) d).
  - unfold left_monitor, captured, log_add, RawMonitorExit, emit, signalled.
    cbn [snd tags x_trace_jni x_trace_num_frames x_frames x_trace_running x_trace_lock
         in_flight polls sent log Nat.pred].
    rewrite <- !app_assoc. reflexivity.
  - unfold signalled. cbn [in_flight polls]. rewrite Hin, Hdelay. reflexivity.
  - reflexivity.
  - rewrite N2Nat.id. exact Hd.
Qed.

Lemma dumpThreads_app (jvmti : Jvmti) (before after : list jthread) (w : World) :
  dumpThreads jvmti (before ++ after) w
  = let '(os1, w1) := dumpThreads jvmti before w in
    let '(os2, w2) := dumpThreads jvmti after w1 in
    (os1 ++ os2, w2).
Proof.
  revert w. induction before as [|t before IH]; intros w.
  - cbn [app dumpThreads]. unfold mret, M_ret.
    destruct (dumpThreads jvmti after w). reflexivity.
  - cbn [app dumpThreads]. unfold mbind, M_bind, mret, M_ret.
    destruct (dumpThread jvmti t w) as [o w1]. rewrite IH.
    destruct (dumpThreads jvmti before w1) as [os1 w2].
    destruct (dumpThreads jvmti after w2) as [os2 w3]. reflexivity.
Qed.

(** What a run of [dumpThread] writes, by the way it is left. *)
Lemma dumpThread_writes (jvmti : Jvmti) (thread : jthread) (w w' : World) (o : Outcome) :
  dumpThread jvmti thread w = (o, w') ->
  match o with
  | Unavailable => sink w' = sink w /\ stderr w' = stderr w
  | Timeout => sink w' = sink w /\ stderr w' = stderr w ++ [timeout_warning]
  | Captured =>
      sink w' = sink w
                ++ thread_block jvmti thread (x_trace_num_frames w') (x_frames w')
      /\ stderr w' = stderr w
  end.
Proof.
  intros Hd. apply dumpThread_frame in Hd. destruct Hd as (_ & _ & Hd).
  destruct o.
  - destruct Hd as [_ ->]. rewrite sink_log_add, stderr_log_add. simpl.
    now rewrite !app_nil_r.
  - destruct Hd as (tag & pre & _ & Hpre & Hlog). unfold sink, stderr. rewrite Hlog.
    rewrite !written_app, !(written_poll_events _ pre Hpre). simpl.
    now rewrite !app_nil_r.
  - destruct Hd as (tag & pre & _ & Hpre & _ & Hlog). unfold sink, stderr. rewrite Hlog.
    destruct (written_print_events jvmti thread (x_trace_num_frames w') (x_frames w'))
      as [Ho He].
    rewrite !written_app, !(written_poll_events _ pre Hpre), Ho, He. simpl.
    now rewrite !app_nil_r.
Qed.

Lemma frame_at_deposited (jvmti : Jvmti) (e : JNIEnv) (tid : pthread_t)
    (old : list AsyncCallFrame) (i : nat) :
  (i < List.length (snd (AsyncGetCallTrace jvmti e MAX_FRAMES tid)))%nat ->
  frame_at (deposited jvmti e tid old) i
  = frame_at (snd (AsyncGetCallTrace jvmti e MAX_FRAMES tid)) i.
Proof. intros Hi. unfold frame_at, deposited. now apply app_nth1. Qed.

(** ** Capture of a thread without a tag *)

(** C8.  For a thread handle with no tag in the registry [dumpThread]
    takes the early return: the monitor is entered and left again, no
    signal is sent, and neither the slot nor the flag is written. *)
Theorem dumpThread_unregistered (jvmti : Jvmti) (thread : jthread) (w : World) :
  tags w !! thread = None ->
  exists w',
    dumpThread jvmti thread w = (Unavailable, w')
    /\ x_trace_lock w' = x_trace_lock w
    /\ in_flight w' = in_flight w /\ sent w' = sent w
    /\ x_trace_jni w' = x_trace_jni w
    /\ x_trace_num_frames w' = x_trace_num_frames w
    /\ x_frames w' = x_frames w
    /\ x_trace_running w' = x_trace_running w
    /\ log w' = log w ++ [EMonitorEnter; EMonitorExit].
Proof.
  intros Htag. exists (log_add w [EMonitorEnter; EMonitorExit]).
  split; [|repeat split].
  apply dumpThread_untagged. unfold GetTag. cbn [fst]. rewrite Htag.
  now destruct (GetTag_ok jvmti thread).
Qed.

Lemma dumpThread_unregistered_witness :
  exists w',
    dumpThread (demo_jvmti demo_table prompt) 9 demo_world = (Unavailable, w')
    /\ x_trace_lock w' = 0%nat /\ in_flight w' = [] /\ sent w' = 0%nat
    /\ x_trace_running w' = false
    /\ log w' = [EMonitorEnter; EMonitorExit].
Proof.
  destruct (dumpThread_unregistered (demo_jvmti demo_table prompt) 9 demo_world eq_refl)
    as (w' & H1 & H2 & H3 & H4 & _ & _ & _ & H5 & H6).
  exists w'. repeat split; assumption.
Defined.

(** ** Frame lines *)

(** C9.  [printCallFrame] writes one line for the frame, whatever the
    lookups answer: class and method, each [Unknown] when its lookup
    fails, and in brackets [Native Method] when the line resolved is the
    native value, otherwise [Unknown Source] when there is no source
    file, otherwise the source file alone when the line is not
    positive, otherwise the source file and the line; and
    [printThreadDump] writes such a line for every frame of the slot. *)
Theorem printCallFrame_forms (jvmti : Jvmti) (m : jmethodID) (lineno : Z) (w : World) :
  let line := getLineNumber jvmti m lineno in
  let source := source_file jvmti m in
  let where_ := resolve jvmti m lineno in
  printCallFrame jvmti m lineno w
  = (tt, log_add w [EWrite Out (tab +:+ "at " +:+ class_text jvmti m +:+ "."
                                +:+ method_text jvmti m
                                +:+ "(" +:+ location_text where_ +:+ ")" +:+ nl)])
  /\ ((line = NATIVE_METHOD_LINENO /\ where_ = NativeMethod
       /\ location_text where_ = "Native Method")
      \/ (line <> NATIVE_METHOD_LINENO /\ source = None /\ where_ = UnknownSource
          /\ location_text where_ = "Unknown Source")
      \/ (exists s, line <> NATIVE_METHOD_LINENO /\ source = Some s /\ line <= 0
                    /\ where_ = SourceOnly s /\ location_text where_ = s)
      \/ (exists s, line <> NATIVE_METHOD_LINENO /\ source = Some s /\ 0 < line
                    /\ where_ = SourceLine s line
                    /\ location_text where_ = s +:+ ":" +:+ fmt_d line))
  /\ (GetMethodName jvmti m = None -> method_text jvmti m = "Unknown")
  /\ (GetMethodDeclaringClass jvmti m = None ->
      class_text jvmti m = "Unknown" /\ source = None)
  /\ (forall clazz, GetMethodDeclaringClass jvmti m = Some clazz ->
        (GetClassSignature jvmti clazz = None -> class_text jvmti m = "Unknown")
        /\ (forall sig, GetClassSignature jvmti clazz = Some sig ->
              class_text jvmti m = fixClassSignature sig)
        /\ source = GetSourceFileName jvmti clazz)
  /\ (forall thread,
        sink (snd (printThreadDump jvmti thread w))
        = sink w ++ header_chunks jvmti thread
          ++ map (fun i => frame_line jvmti (frame_at (x_frames w) i))
                 (seq 0 (Z.to_nat (x_trace_num_frames w)))
          ++ [nl]).
Proof.
  cbv zeta. split; [|split; [|split; [|split; [|split]]]].
  - exact (printCallFrame_line jvmti {| lineno := lineno; method := m |} w).
  - unfold resolve.
    destruct (Z.eqb_spec (getLineNumber jvmti m lineno) NATIVE_METHOD_LINENO) as [He|Hne].
    + left. auto.
    + right. destruct (source_file jvmti m) as [s|].
      * right. destruct (Z.leb_spec (getLineNumber jvmti m lineno) 0).
        -- left. exists s. auto.
        -- right. exists s. repeat split; auto.
      * left. auto.
  - unfold method_text. now intros ->.
  - unfold class_text, source_file. now intros ->.
  - unfold class_text, source_file. intros clazz ->. repeat split.
    + now intros ->.
    + now intros sig ->.
  - intros thread. rewrite printThreadDump_log. cbn [snd]. rewrite sink_log_add.
    now destruct (written_print_events jvmti thread (x_trace_num_frames w) (x_frames w))
      as [-> _].
Qed.

Lemma printCallFrame_forms_witness :
  method_text (demo_jvmti demo_table prompt) 3 = "Unknown"
  /\ class_text (demo_jvmti demo_table prompt) 3 = "Unknown"
  /\ class_text (demo_jvmti demo_table prompt) 1 = "demo.Markers".
Proof.
  destruct (printCallFrame_forms (demo_jvmti demo_table prompt) 3 0 demo_world)
    as (_ & _ & Hm & Hc & _).
  destruct (printCallFrame_forms (demo_jvmti demo_table prompt) 1 0 demo_world)
    as (_ & _ & _ & _ & Hs & _).
  split; [exact (Hm eq_refl)|]. split; [exact (proj1 (Hc eq_refl))|].
  exact (proj1 (proj2 (Hs 7 eq_refl)) "Ldemo/Markers;" eq_refl).
Defined.

(** The four forms on a frame of the demo runtime. *)
Example frame_line_forms :
  let jvmti := demo_jvmti demo_table prompt in
  frame_line jvmti {| lineno := -3; method := 1 |}
    = tab +:+ "at demo.Markers.markerA(Native Method)" +:+ nl
  /\ frame_line jvmti {| lineno := 4; method := 3 |}
    = tab +:+ "at Unknown.Unknown(Unknown Source)" +:+ nl
  /\ frame_line jvmti {| lineno := -1; method := 1 |}
    = tab +:+ "at demo.Markers.markerA(Markers.java)" +:+ nl
  /\ frame_line jvmti marker_b
    = tab +:+ "at demo.Markers.markerB(Markers.java:20)" +:+ nl.
Proof. repeat split; reflexivity. Qed.

(** ** Thread blocks *)

Lemma dumpThreads_cons (jvmti : Jvmti) (thread : jthread) (rest : list jthread)
    (w w1 w2 : World) (o : Outcome) (os : list Outcome) :
  dumpThread jvmti thread w = (o, w1) ->
  dumpThreads jvmti rest w1 = (os, w2) ->
  dumpThreads jvmti (thread :: rest) w = (o :: os, w2).
Proof.
  intros H1 H2. cbn [dumpThreads]. unfold mbind, M_bind, mret, M_ret.
  now rewrite H1, H2.
Qed.

Lemma handleClient_threads (jvmti : Jvmti) (threads : list jthread) (w : World) :
  GetAllThreads jvmti = inr threads ->
  handleClient jvmti w = dumpThreads jvmti threads w.
Proof. intros H. unfold handleClient. now rewrite H. Qed.

(** C3 (as amended).  [dumpThread] captures first and writes afterwards:
    when the thread has no tag nothing is written at all; when the spin
    bound is exhausted nothing is written to the sink and the warning
    goes to stderr; after a capture the sink receives the block of the
    thread, header first, and the header is written after the monitor
    is left.  Whatever the outcome for a thread, the threads after it
    are dumped from the state it left. *)
Theorem dumpThread_block (jvmti : Jvmti) :
  (forall (thread : jthread) (w w' : World) (o : Outcome),
     dumpThread jvmti thread w = (o, w') ->
     match o with
     | Unavailable => sink w' = sink w /\ stderr w' = stderr w
     | Timeout => sink w' = sink w /\ stderr w' = stderr w ++ [timeout_warning]
     | Captured =>
         sink w' = sink w
                   ++ thread_block jvmti thread (x_trace_num_frames w') (x_frames w')
         /\ stderr w' = stderr w
         /\ exists pre,
              written Out pre = []
              /\ log w' = log w ++ pre ++ EMonitorExit
                   :: print_events jvmti thread (x_trace_num_frames w') (x_frames w')
     end)
  /\ (forall (before : list jthread) (thread : jthread) (after : list jthread) (w : World),
        dumpThreads jvmti (before ++ thread :: after) w
        = let '(os1, w1) := dumpThreads jvmti before w in
          let '(o, w2) := dumpThread jvmti thread w1 in
          let '(os2, w3) := dumpThreads jvmti after w2 in
          (os1 ++ o :: os2, w3))
  /\ (forall (threads : list jthread) (w : World),
        GetAllThreads jvmti = inr threads ->
        handleClient jvmti w = dumpThreads jvmti threads w).
Proof.
  split; [|split].
  - intros thread w w' o Hd. pose proof (dumpThread_writes jvmti thread w w' o Hd) as Hw.
    destruct o; try exact Hw.
    destruct Hw as [Hs He]. split; [exact Hs|]. split; [exact He|].
    apply dumpThread_frame in Hd.
    destruct Hd as (_ & _ & tag & pre & _ & Hpre & _ & Hlog).
    exists ([EMonitorEnter; ESlotArm (jni tag); ETestAndSet (x_trace_running w);
             EKill (thread_id tag)] ++ pre ++ [ETestAndSet false]).
    split.
    + rewrite !written_app, (written_poll_events _ pre Hpre). reflexivity.
    + rewrite Hlog, <- !app_assoc. reflexivity.
  - intros before thread after w. rewrite dumpThreads_app.
    destruct (dumpThreads jvmti before w) as [os1 w1].
    cbn [dumpThreads]. unfold mbind, M_bind, mret, M_ret.
    destruct (dumpThread jvmti thread w1) as [o w2].
    destruct (dumpThreads jvmti after w2) as [os2 w3]. reflexivity.
  - intros threads w H. now apply handleClient_threads.
Qed.

Lemma demo_tag (jvmti : Jvmti) (thread : jthread) (tag : ThreadTag) (w : World) :
  GetTag_ok jvmti thread = true -> tags w = tags demo_world ->
  tags demo_world !! thread = Some tag ->
  fst (GetTag jvmti thread w) = Some tag.
Proof. intros Hok Hw Ht. unfold GetTag. cbn [fst]. now rewrite Hok, Hw. Qed.

Lemma demo_timeout_a (delay : nat -> option N) :
  delay 0%nat = None \/ delay 0%nat = Some SPIN_LIMIT ->
  dumpThread (demo_jvmti demo_table delay) 1 demo_world
  = (Timeout, timed_out (demo_jvmti demo_table delay) tag_a demo_world).
Proof.
  intros H. apply dumpThread_timeout; [reflexivity|].
  unfold signalled. cbn [in_flight handler_delay demo_jvmti demo_world sent polls app].
  destruct H as [-> | ->]; [constructor|].
  constructor; [apply N.le_refl | constructor].
Qed.

Lemma dumpThread_block_witness :
  exists w',
    dumpThread (demo_jvmti demo_table never) 1 demo_world = (Timeout, w')
    /\ sink w' = [] /\ stderr w' = [timeout_warning].
Proof.
  pose proof (demo_timeout_a never (or_introl eq_refl)) as E.
  exists (timed_out (demo_jvmti demo_table never) tag_a demo_world).
  split; [exact E|].
  exact (proj1 (dumpThread_block (demo_jvmti demo_table never)) 1 demo_world _ Timeout E).
Defined.

(** C3 as stated fails when captures fail: the runtime knows state and
    description of both threads, so each has a header to write, but no
    handler runs, both captures time out, and the sink stays empty. *)
Lemma no_header_without_capture :
  exists w',
    handleClient (demo_jvmti demo_table never) demo_world = ([Timeout; Timeout], w')
    /\ header_chunks (demo_jvmti demo_table never) 1 <> []
    /\ header_chunks (demo_jvmti demo_table never) 2 <> []
    /\ sink w' = []
    /\ stderr w' = [timeout_warning; timeout_warning].
Proof.
  pose proof (demo_timeout_a never (or_introl eq_refl)) as E1.
  pose proof (dumpThread_writes _ _ _ _ _ E1) as [S1 R1].
  destruct (timed_out_fields (demo_jvmti demo_table never) tag_a demo_world)
    as (Ht & Hi & _ & Hs & _).
  assert (E2 : dumpThread (demo_jvmti demo_table never) 2
                 (timed_out (demo_jvmti demo_table never) tag_a demo_world)
               = (Timeout, timed_out (demo_jvmti demo_table never) tag_b
                             (timed_out (demo_jvmti demo_table never) tag_a demo_world))).
  { apply dumpThread_timeout; [now apply demo_tag|].
    unfold signalled at 1. cbn [in_flight]. rewrite Hi, Hs. constructor. }
  pose proof (dumpThread_writes _ _ _ _ _ E2) as [S2 R2].
  eexists. split; [|split; [discriminate | split; [discriminate | split]]].
  - rewrite (handleClient_threads (demo_jvmti demo_table never) [1; 2] _ eq_refl).
    apply (dumpThreads_cons _ _ _ _ _ _ _ _ E1).
    apply (dumpThreads_cons _ _ _ _ _ _ _ _ E2). reflexivity.
  - rewrite S2, S1. reflexivity.
  - rewrite R2, R1. reflexivity.
Qed.

(** ** The flag *)

(** C2.  The flag [x_trace_running] holds the negation of capture
    finished.  The handler signals that the capture is finished by
    clearing it, the last thing it does; the requester resets it, by a
    test-and-set right before it sends the signal to the target; and a
    capture is taken as finished only by a poll that finds the flag
    clear after a handler has run. *)
Theorem flag_protocol (jvmti : Jvmti) :
  (forall (tid : pthread_t) (w : World),
     x_trace_running (snd (signalHandler jvmti tid w)) = false)
  /\ (forall w : World,
        fst (test_and_set w) = x_trace_running w
        /\ x_trace_running (snd (test_and_set w)) = true)
  /\ (forall (thread : jthread) (w w' : World) (o : Outcome),
        dumpThread jvmti thread w = (o, w') -> o <> Unavailable ->
        exists tag rest,
          fst (GetTag jvmti thread w) = Some tag
          /\ log w' = log w
               ++ [EMonitorEnter; ESlotArm (jni tag);
                   ETestAndSet (x_trace_running w); EKill (thread_id tag)]
               ++ rest)
  /\ (forall (thread : jthread) (w w' : World),
        dumpThread jvmti thread w = (Captured, w') ->
        exists tag pre post tid,
          In (EHandler tid) pre
          /\ log w' = log w
               ++ [EMonitorEnter; ESlotArm (jni tag);
                   ETestAndSet (x_trace_running w); EKill (thread_id tag)]
               ++ pre ++ [ETestAndSet false; EMonitorExit] ++ post).
Proof.
  split; [|split; [|split]].
  - intros tid w. unfold signalHandler.
    now destruct (AsyncGetCallTrace jvmti (x_trace_jni w) MAX_FRAMES tid).
  - intros w. split; reflexivity.
  - intros thread w w' o Hd Ho. apply dumpThread_frame in Hd.
    destruct Hd as (_ & _ & Hd). destruct o; [congruence | |].
    + destruct Hd as (tag & pre & Htag & _ & Hlog). exists tag. eexists.
      split; [exact Htag | exact Hlog].
    + destruct Hd as (tag & pre & Htag & _ & _ & Hlog). exists tag. eexists.
      split; [exact Htag | exact Hlog].
  - intros thread w w' Hd. apply dumpThread_frame in Hd.
    destruct Hd as (_ & _ & tag & pre & _ & _ & [tid Hin] & Hlog).
    exists tag, pre. eexists. exists tid. split; [exact Hin | exact Hlog].
Qed.

Lemma demo_prompt (thread : jthread) (tag : ThreadTag) :
  tags demo_world !! thread = Some tag ->
  dumpThread (demo_jvmti demo_table prompt) thread demo_world
  = (Captured,
     log_add (captured (demo_jvmti demo_table prompt) tag 5 demo_world)
       (print_events (demo_jvmti demo_table prompt) thread
          (fst (AsyncGetCallTrace (demo_jvmti demo_table prompt) (jni tag) MAX_FRAMES
                  (thread_id tag)))
          (deposited (demo_jvmti demo_table prompt) (jni tag) (thread_id tag) []))).
Proof.
  intros H. apply (dumpThread_prompt (demo_jvmti demo_table prompt) thread tag 5 demo_world);
    try reflexivity.
  unfold GetTag. cbn [fst GetTag_ok demo_jvmti]. exact H.
Qed.

Lemma flag_protocol_witness :
  exists w' rest,
    dumpThread (demo_jvmti demo_table prompt) 1 demo_world = (Captured, w')
    /\ log w' = [EMonitorEnter; ESlotArm 11; ETestAndSet false; EKill 101] ++ rest.
Proof.
  pose proof (demo_prompt 1 tag_a eq_refl) as E.
  destruct (proj1 (proj2 (proj2 (flag_protocol (demo_jvmti demo_table prompt))))
              1 demo_world _ Captured E ltac:(discriminate))
    as (tag & rest & Htag & Hlog).
  injection Htag as <-.
  eexists. exists rest. split; [exact E | exact Hlog].
Defined.

(** ** What a capture returns *)

Lemma thread_block_agree (jvmti : Jvmti) (thread : jthread) (n : Z)
    (a b : list AsyncCallFrame) :
  (forall i : nat, (i < Z.to_nat n)%nat -> frame_at a i = frame_at b i) ->
  thread_block jvmti thread n a = thread_block jvmti thread n b.
Proof.
  intros H. unfold thread_block. do 2 f_equal. apply map_ext_in. intros i Hi.
  apply in_seq in Hi. f_equal. apply H. lia.
Qed.

(** After a capture the rendering starts from the world in which the
    monitor has been left. *)
Lemma dumpThread_renders (jvmti : Jvmti) (thread : jthread) (w w' : World) :
  dumpThread jvmti thread w = (Captured, w') ->
  exists (w5 : World) (pre : list Event),
    printThreadDump jvmti thread w5 = (tt, w')
    /\ x_trace_lock w5 = x_trace_lock w
    /\ log w5 = log w ++ pre ++ [EMonitorExit]
    /\ written Out pre = [].
Proof.
  intros Hd. destruct (fst (GetTag jvmti thread w)) as [tag|] eqn:Htag.
  - rewrite (dumpThread_tagged jvmti thread tag w Htag) in Hd.
    destruct (spin jvmti (N.to_nat SPIN_LIMIT) (signalled jvmti tag w)) as [done w5] eqn:Hs.
    apply spin_frame in Hs. destruct Hs as (_ & H2 & _ & es & H4 & H5 & _).
    destruct done; [|discriminate Hd]. injection Hd as <-.
    exists (left_monitor w5),
           ([EMonitorEnter; ESlotArm (jni tag); ETestAndSet (x_trace_running w);
             EKill (thread_id tag)] ++ es).
    split; [exact (printThreadDump_log jvmti thread (left_monitor w5))|].
    unfold left_monitor, RawMonitorExit, emit. cbn [snd x_trace_lock log].
    rewrite H2, H4. unfold signalled. cbn [x_trace_lock log Nat.pred].
    split; [reflexivity|]. split; [now rewrite <- !app_assoc|].
    rewrite written_app, (written_poll_events _ es H5). reflexivity.
  - rewrite (dumpThread_untagged jvmti thread w Htag) in Hd. discriminate Hd.
Qed.

(** C1 (as amended).  [dumpThread] keeps no copy of the request's own:
    after every capture it leaves the monitor first and then renders
    the frames straight from the shared slot.  When no signal of an
    earlier request is in flight and the handler of the target runs
    within the spin bound, the slot holds what that handler deposited
    for this request; the block written is the one of the frames it
    found when, moreover, the walker wrote as many frames as it
    counts. *)
Theorem dumpThread_capture (jvmti : Jvmti) (thread : jthread) :
  (forall w w' : World,
     dumpThread jvmti thread w = (Captured, w') ->
     exists (w5 : World) (pre : list Event),
       printThreadDump jvmti thread w5 = (tt, w')
       /\ x_trace_lock w5 = x_trace_lock w
       /\ log w5 = log w ++ pre ++ [EMonitorExit]
       /\ written Out pre = []
       /\ sink w' = sink w
                    ++ thread_block jvmti thread (x_trace_num_frames w5) (x_frames w5))
  /\ (forall (tag : ThreadTag) (d : N) (w : World),
        tags w !! thread = Some tag -> GetTag_ok jvmti thread = true ->
        in_flight w = [] -> handler_delay jvmti (sent w) = Some d -> (d < SPIN_LIMIT)%N ->
        let n := fst (AsyncGetCallTrace jvmti (jni tag) MAX_FRAMES (thread_id tag)) in
        let fs := snd (AsyncGetCallTrace jvmti (jni tag) MAX_FRAMES (thread_id tag)) in
        let slot := fs ++ skipn (List.length fs) (x_frames w) in
        exists w',
          dumpThread jvmti thread w = (Captured, w')
          /\ printThreadDump jvmti thread (captured jvmti tag d w) = (tt, w')
          /\ x_trace_lock (captured jvmti tag d w) = x_trace_lock w
          /\ x_trace_num_frames (captured jvmti tag d w) = n
          /\ x_frames (captured jvmti tag d w) = slot
          /\ log w' = log w
               ++ [EMonitorEnter; ESlotArm (jni tag);
                   ETestAndSet (x_trace_running w); EKill (thread_id tag)]
               ++ repeat (ETestAndSet true) (N.to_nat d)
               ++ [EHandler (thread_id tag); ETestAndSet false; EMonitorExit]
               ++ print_events jvmti thread n slot
          /\ sink w' = sink w ++ thread_block jvmti thread n slot
          /\ (forall i : nat, (i < List.length fs)%nat -> frame_at slot i = frame_at fs i)
          /\ ((Z.to_nat n <= List.length fs)%nat ->
              sink w' = sink w ++ thread_block jvmti thread n fs)).
Proof.
  split.
  - intros w w' Hd.
    destruct (dumpThread_renders jvmti thread w w' Hd) as (w5 & pre & Hp & Hl & Hlog & Hpre).
    exists w5, pre. split; [exact Hp|]. split; [exact Hl|]. split; [exact Hlog|].
    split; [exact Hpre|].
    pose proof (dumpThread_writes _ _ _ _ _ Hd) as [Hs _].
    rewrite printThreadDump_log in Hp. injection Hp as <-. exact Hs.
  - intros tag d w Htag Hok Hin Hdelay Hd. cbv zeta.
    assert (Hget : fst (GetTag jvmti thread w) = Some tag)
      by (unfold GetTag; cbn [fst]; now rewrite Hok).
    pose proof (dumpThread_prompt jvmti thread tag d w Hget Hin Hdelay Hd) as E.
    pose proof (dumpThread_writes _ _ _ _ _ E) as [Hs _].
    eexists. split; [exact E|].
    split; [apply printThreadDump_log|]. split; [reflexivity|].
    split; [reflexivity|]. split; [reflexivity|]. split; [|split; [|split]].
    + unfold log_add, captured. cbn [log]. rewrite <- !app_assoc. reflexivity.
    + exact Hs.
    + intros i Hi. now apply frame_at_deposited.
    + intros Hcount. rewrite Hs. f_equal. apply thread_block_agree.
      intros i Hi. apply frame_at_deposited. lia.
Qed.

Lemma dumpThread_capture_witness :
  exists w',
    dumpThread (demo_jvmti demo_table prompt) 2 demo_world = (Captured, w')
    /\ sink w' = thread_block (demo_jvmti demo_table prompt) 2 1 [marker_b].
Proof.
  destruct (proj2 (dumpThread_capture (demo_jvmti demo_table prompt) 2) tag_b 5%N demo_world
              eq_refl eq_refl eq_refl eq_refl eq_refl)
    as (w' & E & _ & _ & _ & _ & _ & _ & _ & Hs).
  exists w'. split; [exact E|]. apply Hs. simpl. lia.
Defined.

(** C1 as stated fails when a handler is late.  The handler of thread 1
    has not run when the first capture gives up; it runs during the
    capture of thread 2, fills the slot and clears the flag, and the
    requester, having left the monitor, renders the slot as the block of
    thread 2: the frame shown is [marker_a], the frame of thread 1,
    while the handler of thread 2 would have deposited [marker_b]. *)
Lemma late_handler_answers_next_request :
  exists w',
    handleClient (demo_jvmti demo_table late_first) demo_world = ([Timeout; Captured], w')
    /\ sink w' = thread_block (demo_jvmti demo_table late_first) 2 1 [marker_a]
    /\ snd (AsyncGetCallTrace (demo_jvmti demo_table late_first)
              (jni tag_b) MAX_FRAMES (thread_id tag_b)) = [marker_b]
    /\ thread_block (demo_jvmti demo_table late_first) 2 1 [marker_a]
       <> thread_block (demo_jvmti demo_table late_first) 2 1 [marker_b]
    /\ (exists pre,
          log w' = pre ++ EMonitorExit
                     :: print_events (demo_jvmti demo_table late_first) 2 1 [marker_a])
    /\ In (ESlotRead 0) (print_events (demo_jvmti demo_table late_first) 2 1 [marker_a]).
Proof.
  pose proof (demo_timeout_a late_first (or_intror eq_refl)) as E1.
  pose proof (dumpThread_writes _ _ _ _ _ E1) as [S1 _].
  destruct (timed_out_fields (demo_jvmti demo_table late_first) tag_a demo_world)
    as (Ht & Hi & Hp & Hs & Hf).
  assert (E2 : dumpThread (demo_jvmti demo_table late_first) 2
                 (timed_out (demo_jvmti demo_table late_first) tag_a demo_world)
               = (Captured,
                  log_add (answered (demo_jvmti demo_table late_first) tag_b 101
                             [(202, (0 + SPIN_LIMIT + 5)%N)]
                             (timed_out (demo_jvmti demo_table late_first) tag_a demo_world))
                    (print_events (demo_jvmti demo_table late_first) 2 1 [marker_a]))).
  { rewrite (dumpThread_stale (demo_jvmti demo_table late_first) 2 tag_b 101
               (0 + SPIN_LIMIT)%N [(202, (0 + SPIN_LIMIT + 5)%N)]).
    - rewrite Hf. reflexivity.
    - now apply demo_tag.
    - unfold signalled at 1. cbn [in_flight]. rewrite Hi, Hs, Hp. reflexivity.
    - rewrite Hp. apply N.le_refl.
    - rewrite Hp. constructor; [|constructor]. reflexivity. }
  pose proof (dumpThread_writes _ _ _ _ _ E2) as [S2 _].
  eexists. split; [|split; [|split; [|split; [|split]]]].
  - rewrite (handleClient_threads (demo_jvmti demo_table late_first) [1; 2] _ eq_refl).
    apply (dumpThreads_cons _ _ _ _ _ _ _ _ E1).
    apply (dumpThreads_cons _ _ _ _ _ _ _ _ E2). reflexivity.
  - rewrite S2, S1. reflexivity.
  - reflexivity.
  - discriminate.
  - unfold log_add, answered. cbn [log].
    exists (log (timed_out (demo_jvmti demo_table late_first) tag_a demo_world)
            ++ [EMonitorEnter; ESlotArm (jni tag_b);
                ETestAndSet (x_trace_running
                               (timed_out (demo_jvmti demo_table late_first) tag_a demo_world));
                EKill (thread_id tag_b); EHandler 101; ETestAndSet false]).
    rewrite <- !app_assoc. reflexivity.
  - right. left. reflexivity.
Qed.

(** ** Startup options *)

Lemma digit_not_space_or_sign (c : ascii) :
  isdigit c = true ->
  isspace c = false /\ Ascii.eqb c "-" = false /\ Ascii.eqb c "+" = false.
Proof.
  destruct c as [[] [] [] [] [] [] [] []]; intros H;
    solve [discriminate H | repeat split; reflexivity].
Qed.

Lemma match_literal_ok (lit rest : string) :
  match_literal lit (lit +:+ rest) = Matched tt rest.
Proof.
  induction lit as [|c lit IH]; [reflexivity|].
  change (String c lit +:+ rest) with (String c (lit +:+ rest)).
  cbn [match_literal]. now rewrite Ascii.eqb_refl.
Qed.

Lemma match_literal_inv (lit s rest : string) (u : unit) :
  match_literal lit s = Matched u rest -> s = lit +:+ rest.
Proof.
  revert s. induction lit as [|c lit IH]; intros s H.
  - injection H as _ ->. reflexivity.
  - destruct s as [|d s]; [discriminate|]. cbn [match_literal] in H.
    destruct (Ascii.eqb_spec c d) as [->|]; [|discriminate].
    apply IH in H. rewrite H. reflexivity.
Qed.

Lemma skip_spaces_app (ws x : string) :
  all_chars isspace ws = true -> skip_spaces (ws +:+ x) = skip_spaces x.
Proof.
  induction ws as [|c ws IH]; [reflexivity|]. cbn [all_chars]. intros H.
  apply andb_prop in H. destruct H as [Hc Hws].
  change (String c ws +:+ x) with (String c (ws +:+ x)).
  cbn [skip_spaces]. rewrite Hc. now apply IH.
Qed.

Lemma skip_spaces_inv (s : string) :
  exists ws, s = ws +:+ skip_spaces s /\ all_chars isspace ws = true.
Proof.
  induction s as [|c s (ws & Hs & Hws)].
  - exists EmptyString. split; reflexivity.
  - cbn [skip_spaces]. destruct (isspace c) eqn:Hc.
    + exists (String c ws). split.
      * change (String c ws +:+ skip_spaces s) with (String c (ws +:+ skip_spaces s)).
        now rewrite <- Hs.
      * cbn [all_chars]. now rewrite Hc.
    + exists EmptyString. split; reflexivity.
Qed.

Lemma read_digits_inv (s : string) (acc : Z) :
  exists ds, s = ds +:+ snd (read_digits acc s) /\ all_chars isdigit ds = true
             /\ (starts_with_digit s = true -> ds <> EmptyString).
Proof.
  revert acc. induction s as [|c s IH]; intros acc.
  - exists EmptyString. repeat split. discriminate.
  - cbn [read_digits starts_with_digit]. destruct (isdigit c) eqn:Hc.
    + destruct (IH (10 * acc + digit_value c)) as (ds & Hs & Hds & _).
      exists (String c ds). split; [|split].
      * change (String c ds +:+ snd (read_digits (10 * acc + digit_value c) s))
          with (String c (ds +:+ snd (read_digits (10 * acc + digit_value c) s))).
        now rewrite <- Hs.
      * cbn [all_chars]. now rewrite Hc.
      * discriminate.
    + exists EmptyString. repeat split. discriminate.
Qed.

Lemma starts_with_digit_app (digits tail : string) :
  digits <> EmptyString -> all_chars isdigit digits = true ->
  starts_with_digit (digits +:+ tail) = true.
Proof.
  destruct digits as [|c ds]; [congruence|]. cbn [all_chars]. intros _ H.
  apply andb_prop in H. exact (proj1 H).
Qed.

(** [%d] converts exactly the inputs made of white space, a sign if
    any, and at least one digit, whatever follows. *)
Lemma scan_d_matches (input : string) :
  (exists v rest, scan_d input = Matched v rest)
  <-> exists ws sign digits tail : string,
        input = ws +:+ sign +:+ digits +:+ tail
        /\ all_chars isspace ws = true
        /\ (sign = EmptyString \/ sign = "+" \/ sign = "-")
        /\ digits <> EmptyString
        /\ all_chars isdigit digits = true.
Proof.
  split.
  - intros (v & rest & H). unfold scan_d in H.
    destruct (skip_spaces_inv input) as (ws & Hin & Hws).
    destruct (skip_spaces input) as [|c r]; [discriminate|].
    set (body := if Ascii.eqb c "-" || Ascii.eqb c "+" then r else String c r) in H.
    destruct (starts_with_digit body) eqn:Hb; [|discriminate].
    destruct (read_digits_inv body 0) as (ds & Hbody & Hds & Hne).
    exists ws.
    exists (if Ascii.eqb c "-" || Ascii.eqb c "+" then String c EmptyString else EmptyString).
    exists ds, (snd (read_digits 0 body)).
    split; [|split; [exact Hws | split; [|split; [exact (Hne Hb) | exact Hds]]]].
    + rewrite Hin at 1. f_equal. rewrite <- Hbody. subst body.
      destruct (Ascii.eqb c "-" || Ascii.eqb c "+"); reflexivity.
    + destruct (Ascii.eqb_spec c "-") as [->|]; [now right; right|].
      destruct (Ascii.eqb_spec c "+") as [->|]; [now right; left | now left].
  - intros (ws & sign & digits & tail & -> & Hws & Hsign & Hne & Hds).
    pose proof (starts_with_digit_app digits tail Hne Hds) as Hstart.
    unfold scan_d. rewrite (skip_spaces_app _ _ Hws).
    destruct Hsign as [-> | [-> | ->]].
    + change (EmptyString +:+ digits +:+ tail) with (digits +:+ tail).
      destruct (digits +:+ tail) as [|c r] eqn:E; [discriminate|].
      cbn [starts_with_digit] in Hstart.
      destruct (digit_not_space_or_sign c Hstart) as (Hsp & Hm & Hp).
      cbn [skip_spaces]. rewrite Hsp, Hm, Hp. cbn [orb starts_with_digit].
      rewrite Hstart. destruct (read_digits 0 (String c r)). eauto.
    + change ("+" +:+ digits +:+ tail) with (String "+" (digits +:+ tail)).
      cbn [skip_spaces]. change (isspace "+") with false. cbv iota.
      change (Ascii.eqb "+" "-") with false. change (Ascii.eqb "+" "+") with true.
      cbn [orb]. rewrite Hstart. destruct (read_digits 0 (digits +:+ tail)). eauto.
    + change ("-" +:+ digits +:+ tail) with (String "-" (digits +:+ tail)).
      cbn [skip_spaces]. change (isspace "-") with false. cbv iota.
      change (Ascii.eqb "-" "-") with true.
      cbn [orb]. rewrite Hstart. destruct (read_digits 0 (digits +:+ tail)). eauto.
Qed.

Lemma sscanf_port_matches (s : string) :
  (exists p, sscanf_port s = (1, Some p)) <-> port_option s.
Proof.
  unfold sscanf_port, port_option. split.
  - intros [p H]. destruct (match_literal "port=" s) as [[] rest| |] eqn:Hlit;
      [|discriminate|discriminate].
    apply match_literal_inv in Hlit.
    destruct (scan_d rest) as [v tail| |] eqn:Hd; [|discriminate|discriminate].
    destruct (proj1 (scan_d_matches rest) (ex_intro _ v (ex_intro _ tail Hd)))
      as (ws & sign & digits & tl & -> & H1 & H2 & H3 & H4).
    exists ws, sign, digits, tl. repeat split; assumption.
  - intros (ws & sign & digits & tail & -> & H1 & H2 & H3 & H4).
    rewrite match_literal_ok.
    destruct (proj2 (scan_d_matches (ws +:+ sign +:+ digits +:+ tail)))
      as (v & rest & ->).
    + exists ws, sign, digits, tail. repeat split; assumption.
    + eauto.
Qed.

Lemma sscanf_port_count (s : string) :
  fst (sscanf_port s) = 1 -> exists p, sscanf_port s = (1, Some p).
Proof.
  unfold sscanf_port, EOF. destruct (match_literal "port=" s); try discriminate.
  destruct (scan_d rest); try discriminate. eauto.
Qed.

Lemma Agent_OnLoad_scanned (vm : JavaVM) (s : string) (p : Z) :
  sscanf_port s = (1, Some p) ->
  port (Agent_OnLoad vm (Some s)) = p
  /\ ~ In parse_complaint (complaints (Agent_OnLoad vm (Some s))).
Proof.
  intros H. unfold Agent_OnLoad. rewrite H. cbn [Z.eqb Pos.eqb].
  destruct (negb (GetEnv vm =? JNI_OK)); [|destruct (negb (ok (CreateRawMonitor vm)));
    [|destruct (negb (ok (AddCapabilities vm))); [|destruct (negb (ok (SetEventCallbacks vm)));
    [|destruct (enable_events vm _)]]]];
    (split; [reflexivity|]); cbn [complaints In]; unfold parse_complaint;
    intros Hc; try tauto; destruct Hc as [Hc|[]];
    cbv [String.append] in Hc; discriminate Hc.
Qed.

Lemma Agent_OnLoad_unscanned (vm : JavaVM) (options : option string) :
  match options with
  | None => True
  | Some s => fst (sscanf_port s) <> 1
  end ->
  Agent_OnLoad vm options
  = {| returned := JNI_ERR; port := 0; complaints := [parse_complaint] |}.
Proof.
  unfold Agent_OnLoad. destruct options as [s|]; [|reflexivity].
  destruct (sscanf_port s) as [n v]. cbn [fst]. intros Hn.
  now destruct (Z.eqb_spec n 1).
Qed.

(** C10.  [Agent_OnLoad] fails on the options, with [JNI_ERR] and the
    parse error on stderr, exactly when they are null or are not
    [port=] followed by what [%d] converts: white space if any, a sign
    if any, and at least one decimal digit.  Whatever follows the
    digits, and whatever the number, options of that form are taken
    and the number converted is the port; the agent then loads if the
    virtual machine refuses none of its calls. *)
Theorem Agent_OnLoad_options (vm : JavaVM) (options : option string) :
  (rejects_options vm options
   <-> options = None \/ exists s, options = Some s /\ ~ port_option s)
  /\ (rejects_options vm options -> port (Agent_OnLoad vm options) = 0)
  /\ (forall s, options = Some s -> port_option s ->
        exists p, sscanf_port s = (1, Some p)
                  /\ port (Agent_OnLoad vm options) = p
                  /\ ~ In parse_complaint (complaints (Agent_OnLoad vm options)))
  /\ (forall s, options = Some s -> port_option s ->
        GetEnv vm = JNI_OK -> CreateRawMonitor vm = 0 -> AddCapabilities vm = 0 ->
        SetEventCallbacks vm = 0 -> (forall event, SetEventNotificationMode vm event = 0) ->
        returned (Agent_OnLoad vm options) = JNI_OK).
Proof.
  assert (Hacc : forall s, options = Some s -> port_option s ->
            exists p, sscanf_port s = (1, Some p)
                      /\ port (Agent_OnLoad vm options) = p
                      /\ ~ In parse_complaint (complaints (Agent_OnLoad vm options))).
  { intros s -> Hs. apply sscanf_port_matches in Hs. destruct Hs as [p Hp].
    exists p. split; [exact Hp|]. now apply Agent_OnLoad_scanned. }
  assert (Hrej : (options = None \/ exists s, options = Some s /\ ~ port_option s) ->
            Agent_OnLoad vm options
            = {| returned := JNI_ERR; port := 0; complaints := [parse_complaint] |}).
  { intros H. apply Agent_OnLoad_unscanned. destruct options as [s|]; [|exact I].
    destruct H as [H|(s' & Hs' & Hn)]; [discriminate|]. injection Hs' as <-.
    intros H1. apply Hn, sscanf_port_matches. now apply sscanf_port_count. }
  assert (Hiff : rejects_options vm options
            <-> options = None \/ exists s, options = Some s /\ ~ port_option s).
  { split.
    - intros [_ Hc]. destruct options as [s|]; [right | now left].
      exists s. split; [reflexivity|]. intros Hs.
      destruct (Hacc s eq_refl Hs) as (p & _ & _ & Hn). apply Hn. rewrite Hc. now left.
    - intros H. unfold rejects_options. rewrite (Hrej H). split; reflexivity. }
  split; [exact Hiff|]. split; [|split; [exact Hacc|]].
  - intros H. apply Hiff in H. now rewrite (Hrej H).
  - intros s -> Hs He Hm Hc Hcb Hev. apply sscanf_port_matches in Hs.
    destruct Hs as [p Hp]. unfold Agent_OnLoad. rewrite Hp, He, Hm, Hc, Hcb.
    cbn [Z.eqb Pos.eqb JNI_OK negb ok enable_events]. rewrite !Hev. reflexivity.
Qed.

Lemma Agent_OnLoad_options_witness :
  rejects_options demo_vm (Some "port=abc")
  /\ port (Agent_OnLoad demo_vm (Some "port=abc")) = 0
  /\ port (Agent_OnLoad demo_vm (Some "port=80abc")) = 80.
Proof.
  assert (Hbad : ~ port_option "port=abc").
  { intros H. apply sscanf_port_matches in H. destruct H as [p H]. discriminate H. }
  assert (Hgood : port_option "port=80abc").
  { apply sscanf_port_matches. exists 80. reflexivity. }
  assert (Hrej : rejects_options demo_vm (Some "port=abc")).
  { apply (proj1 (Agent_OnLoad_options demo_vm (Some "port=abc"))).
    right. exists "port=abc". split; [reflexivity | exact Hbad]. }
  split; [exact Hrej|]. split.
  - exact (proj1 (proj2 (Agent_OnLoad_options demo_vm (Some "port=abc"))) Hrej).
  - destruct (proj1 (proj2 (proj2 (Agent_OnLoad_options demo_vm (Some "port=80abc"))))
                "port=80abc" eq_refl Hgood) as (p & Hp & Hport & _).
    rewrite Hport. injection Hp as <-. reflexivity.
Defined.

(** Options taken and options refused, with the port they set. *)
Example Agent_OnLoad_examples :
  Agent_OnLoad demo_vm (Some "port=80abc")
    = {| returned := JNI_OK; port := 80; complaints := [] |}
  /\ port (Agent_OnLoad demo_vm (Some "port=-5")) = -5
  /\ port (Agent_OnLoad demo_vm (Some "port=70000")) = 70000
  /\ port (Agent_OnLoad demo_vm (Some "port= +8080")) = 8080
  /\ port (Agent_OnLoad demo_vm (Some "port=4294967297")) = 1
  /\ returned (Agent_OnLoad demo_vm None) = JNI_ERR
  /\ returned (Agent_OnLoad demo_vm (Some "port=")) = JNI_ERR
  /\ returned (Agent_OnLoad demo_vm (Some "port=-")) = JNI_ERR
  /\ returned (Agent_OnLoad demo_vm (Some "Port=80")) = JNI_ERR
  /\ returned (Agent_OnLoad demo_vm (Some " port=80")) = JNI_ERR.
Proof. repeat split; reflexivity. Qed.

(** * Further properties *)

(** ** Thread state labels *)

Lemma has_bit_lor (state extra mask : Z) :
  Z.land extra tested_bits = 0 -> Z.land tested_bits mask = mask ->
  has_bit (Z.lor state extra) mask = has_bit state mask.
Proof.
  intros He Hm. unfold has_bit. rewrite Z.land_lor_distr_l.
  rewrite <- Hm at 2. rewrite Z.land_assoc, He, Z.land_0_l, Z.lor_0_r. reflexivity.
Qed.

(** X1.  The label depends only on the nine bits that are tested: bits
    outside them, such as suspended, interrupted or in native code,
    never change it. *)
Theorem threadStateEnum_other_bits (state extra : Z) :
  Z.land extra tested_bits = 0 ->
  threadStateEnum (Z.lor state extra) = threadStateEnum state.
Proof.
  intros He. unfold threadStateEnum.
  rewrite !(has_bit_lor state extra _ He) by reflexivity. reflexivity.
Qed.

Lemma threadStateEnum_other_bits_witness :
  threadStateEnum (Z.lor 0x0005 0x700000) = "RUNNABLE".
Proof.
  rewrite (threadStateEnum_other_bits 0x0005 0x700000); reflexivity.
Defined.

(** X2.  A mask without the alive bit is labelled [NEW] or
    [TERMINATED] whatever its other bits, and a mask with the alive bit
    never is. *)
Theorem threadStateEnum_alive (state : Z) :
  has_bit state JVMTI_THREAD_STATE_ALIVE = false
  <-> threadStateEnum state = "NEW" \/ threadStateEnum state = "TERMINATED".
Proof.
  unfold threadStateEnum.
  repeat match goal with
         | |- context [has_bit state ?m] => destruct (has_bit state m)
         end;
    split; intros H; try reflexivity; try discriminate H; auto;
    destruct H as [H|H]; discriminate H.
Qed.

(** ** Line numbers *)

(** Before the first start no iteration matches. *)
Lemma scan_table_before (table : list jvmtiLineNumberEntry) (target : Z) :
  increasing table -> target < start_location (table_at table 0) ->
  forall n i : nat, (1 <= i)%nat -> (i + n = List.length table)%nat ->
    scan_table table target n i (start_location (table_at table (i - 1)))
    = (-1, start_location (table_at table (List.length table - 1))).
Proof.
  intros Hinc Ht. induction n as [|n IH]; intros i Hi Hn.
  - simpl. replace (i - 1)%nat with (List.length table - 1)%nat by lia. reflexivity.
  - simpl.
    assert (start_location (table_at table 0) <= start_location (table_at table (i - 1)))
      by (apply increasing_le; [assumption | lia | lia]).
    replace (target >=? _) with false by (symmetry; rewrite Z.geb_leb; apply Z.leb_gt; lia).
    rewrite andb_false_r. specialize (IH (S i)).
    replace (S i - 1)%nat with i in IH by lia. apply IH; lia.
Qed.

(** X3.  For a location that is not negative the result is [-1] or a
    line of the method's table, never anything else; it is [-1] when
    the table cannot be read or is empty. *)
Theorem getLineNumber_from_table (jvmti : Jvmti) (m : jmethodID) (target : Z) :
  0 <= target ->
  (getLineNumber jvmti m target = -1
   \/ exists table e, GetLineNumberTable jvmti m = Some table
                      /\ In e table /\ getLineNumber jvmti m target = line_number e)
  /\ (GetLineNumberTable jvmti m = None -> getLineNumber jvmti m target = -1)
  /\ (GetLineNumberTable jvmti m = Some [] -> getLineNumber jvmti m target = -1).
Proof.
  intros Hge. unfold getLineNumber.
  replace (target <? 0) with false by (symmetry; apply Z.ltb_ge; lia).
  split; [|split; intros ->; reflexivity].
  destruct (GetLineNumberTable jvmti m) as [table|]; [|now left].
  destruct (Nat.eqb_spec (List.length table) 1) as [H1|H1].
  { right. exists table, (table_at table 0). split; [reflexivity|].
    split; [apply nth_In; lia | reflexivity]. }
  destruct (Nat.ltb_spec 1 (List.length table)) as [H2|H2]; [|now left].
  pose proof (scan_table_line table target (List.length table - 1) 1
                (start_location (table_at table 0))) as Hs.
  destruct (scan_table _ _ _ _ _) as [line last]. simpl in Hs.
  destruct ((line =? -1) && (target >=? last)).
  - right. exists table, (table_at table (List.length table - 1)).
    split; [reflexivity|]. split; [apply nth_In; lia | reflexivity].
  - destruct Hs as [Hs|(e & Hin & Hs)]; [lia | lia | now left |].
    right. exists table, e. auto.
Qed.

Lemma getLineNumber_from_table_witness :
  getLineNumber (demo_jvmti [] prompt) 1 4 = -1.
Proof.
  exact (proj2 (proj2 (getLineNumber_from_table (demo_jvmti [] prompt) 1 4 ltac:(lia)))
           eq_refl).
Defined.

(** X4.  In a table of more than one entry with increasing starts a
    location before the first start has no line: the result is [-1].
    A table of one entry gives its line even then. *)
Theorem getLineNumber_before_first (jvmti : Jvmti) (m : jmethodID)
    (table : list jvmtiLineNumberEntry) (target : Z) :
  GetLineNumberTable jvmti m = Some table -> 0 <= target ->
  target < start_location (table_at table 0) ->
  ((1 < List.length table)%nat -> increasing table -> getLineNumber jvmti m target = -1)
  /\ (List.length table = 1%nat ->
      getLineNumber jvmti m target = line_number (table_at table 0)).
Proof.
  intros Htab Hge Hlt. unfold getLineNumber. rewrite Htab.
  replace (target <? 0) with false by (symmetry; apply Z.ltb_ge; lia).
  split.
  - intros Hlen Hinc.
    destruct (Nat.eqb_spec (List.length table) 1) as [H1|_]; [lia|].
    destruct (Nat.ltb_spec 1 (List.length table)) as [_|H2]; [|lia].
    pose proof (scan_table_before table target Hinc Hlt (List.length table - 1) 1) as Hs.
    simpl in Hs. rewrite Hs by lia. cbn [Z.eqb Pos.eqb andb].
    assert (start_location (table_at table 0)
            <= start_location (table_at table (List.length table - 1)))
      by (apply increasing_le; [assumption | lia | lia]).
    replace (target >=? _) with false by (symmetry; rewrite Z.geb_leb; apply Z.leb_gt; lia).
    reflexivity.
  - intros ->. reflexivity.
Qed.

Lemma getLineNumber_before_first_witness :
  getLineNumber (demo_jvmti [ {| start_location := 3; line_number := 10 |};
                              {| start_location := 6; line_number := 20 |} ] prompt) 1 2
  = -1
  /\ getLineNumber (demo_jvmti [ {| start_location := 3; line_number := 10 |} ] prompt) 1 2
     = 10.
Proof.
  split.
  - assert (Hlt : 2 < start_location
                        (table_at [ {| start_location := 3; line_number := 10 |};
                                    {| start_location := 6; line_number := 20 |} ] 0))
      by (simpl; lia).
    apply (proj1 (getLineNumber_before_first (demo_jvmti _ prompt) 1 _ 2 eq_refl
                    ltac:(lia) Hlt)); [simpl; lia|].
    intros i Hi. destruct i as [|i]; simpl in *; lia.
  - assert (Hlt : 2 < start_location
                        (table_at [ {| start_location := 3; line_number := 10 |} ] 0))
      by (simpl; lia).
    apply (proj2 (getLineNumber_before_first (demo_jvmti _ prompt) 1 _ 2 eq_refl
                    ltac:(lia) Hlt)). reflexivity.
Defined.

(** ** Class names *)

(** X5.  Normalization never lengthens a name: a wrapped name loses
    exactly two characters and keeps no slash; any other name keeps its
    length. *)
Theorem fixClassSignature_length (s : string) :
  (wrapped s ->
   String.length (fixClassSignature s) = (String.length s - 2)%nat
   /\ forall i : nat, String.get i (fixClassSignature s) <> Some "/"%char)
  /\ (~ wrapped s -> String.length (fixClassSignature s) = String.length s)
  /\ (String.length (fixClassSignature s) <= String.length s)%nat.
Proof.
  destruct (fixClassSignature_cases s) as [[Hw ->]|[Hn ->]].
  - assert (Hlen : String.length (replace_slashes (substring 1 (String.length s - 2) s))
                   = (String.length s - 2)%nat).
    { destruct Hw as (Hl & _). rewrite length_replace_slashes, length_substring; lia. }
    split; [|split; [tauto | lia]].
    intros _. split; [exact Hlen|]. intros i. rewrite get_replace_slashes.
    destruct (String.get i _) as [c|]; [|discriminate]. simpl. unfold replace_slash.
    destruct (Ascii.eqb_spec c "/") as [->|Hc]; [discriminate | congruence].
  - split; [tauto|]. split; [reflexivity | lia].
Qed.

Lemma fixClassSignature_length_witness :
  String.length (fixClassSignature "Ljava/lang/String;") = 16%nat
  /\ String.length (fixClassSignature "[Ljava/lang/String;") = 19%nat.
Proof.
  split.
  - apply (proj1 (proj1 (fixClassSignature_length "Ljava/lang/String;")
                    ltac:(unfold wrapped; simpl; repeat split; lia))).
  - apply (proj1 (proj2 (fixClassSignature_length "[Ljava/lang/String;"))).
    unfold wrapped. simpl. intros (_ & H & _). discriminate H.
Defined.

Lemma threadStateEnum_alive_witness :
  threadStateEnum 0x0002 = "NEW" \/ threadStateEnum 0x0002 = "TERMINATED".
Proof. exact (proj1 (threadStateEnum_alive 0x0002) eq_refl). Defined.

(** ** Blocks *)

(** X6.  [printThreadDump] writes one chunk per frame counted in the
    slot between the header and the blank line, writes nothing to
    stderr and leaves the rest of the process state as it is; when the
    count is zero or negative, as after a stack walk that failed, it
    reads no frame and writes the header and the blank line only. *)
Theorem printThreadDump_count (jvmti : Jvmti) (thread : jthread) (w : World) :
  (exists es, printThreadDump jvmti thread w = (tt, log_add w es)
              /\ written Stderr es = []
              /\ List.length (written Out es)
                 = (List.length (header_chunks jvmti thread)
                    + Z.to_nat (x_trace_num_frames w) + 1)%nat)
  /\ (x_trace_num_frames w <= 0 ->
      printThreadDump jvmti thread w
      = (tt, log_add w (map (EWrite Out) (header_chunks jvmti thread ++ [nl])))).
Proof.
  rewrite printThreadDump_log. split.
  - eexists. split; [reflexivity|].
    destruct (written_print_events jvmti thread (x_trace_num_frames w) (x_frames w))
      as [-> ->].
    split; [reflexivity|]. unfold thread_block.
    rewrite !length_app, length_map, length_seq. simpl. lia.
  - intros Hn. unfold print_events.
    replace (Z.to_nat (x_trace_num_frames w)) with 0%nat by lia.
    rewrite map_app. reflexivity.
Qed.

Lemma printThreadDump_count_witness :
  sink (snd (printThreadDump (demo_jvmti demo_table prompt) 1 demo_world))
  = header_chunks (demo_jvmti demo_table prompt) 1 ++ [nl].
Proof.
  rewrite (proj2 (printThreadDump_count (demo_jvmti demo_table prompt) 1 demo_world)
             ltac:(simpl; lia)).
  reflexivity.
Defined.

(** ** Invariants of a dump *)

Lemma for_each_handlers_jni (jvmti : Jvmti) (l : list (pthread_t * N)) (w : World) :
  x_trace_jni (snd (for_each l (fun p => signalHandler jvmti (fst p)) w)) = x_trace_jni w.
Proof.
  revert w. induction l as [|p l IH]; intros w; [reflexivity|].
  cbn [for_each]. unfold mbind, M_bind.
  destruct (signalHandler jvmti (fst p) w) as [[] w1] eqn:E.
  rewrite IH. unfold signalHandler in E.
  destruct (AsyncGetCallTrace jvmti (x_trace_jni w) MAX_FRAMES (fst p)) as [k fs].
  injection E as <-. reflexivity.
Qed.

Lemma spin_keeps (jvmti : Jvmti) (n : nat) (w w' : World) (done : bool) :
  spin jvmti n w = (done, w') ->
  x_trace_jni w' = x_trace_jni w
  /\ (x_trace_running w = true -> x_trace_running w' = true).
Proof.
  revert w. induction n as [|n IH]; intros w Hs.
  - injection Hs as <- <-. auto.
  - cbn [spin] in Hs. unfold mbind, M_bind in Hs.
    assert (Hj : x_trace_jni (snd (run_handlers jvmti w)) = x_trace_jni w)
      by (unfold run_handlers; now rewrite for_each_handlers_jni).
    destruct (run_handlers jvmti w) as [[] w1]. cbn [snd] in Hj.
    unfold test_and_set, emit in Hs.
    destruct (x_trace_running w1); cbn [negb] in Hs.
    + apply IH in Hs. cbn [x_trace_jni x_trace_running] in Hs.
      destruct Hs as [H1 H2]. split; [congruence | auto].
    + injection Hs as <- <-. cbn [x_trace_jni x_trace_running]. auto.
Qed.

Lemma GetTag_tag_of (jvmti : Jvmti) (thread : jthread) (w : World) :
  fst (GetTag jvmti thread w) = tag_of jvmti (tags w) thread.
Proof. reflexivity. Qed.

Lemma dumpThread_keeps (jvmti : Jvmti) (thread : jthread) (w w' : World) (o : Outcome) :
  dumpThread jvmti thread w = (o, w') ->
  tags w' = tags w /\ x_trace_lock w' = x_trace_lock w
  /\ (o = Unavailable <-> tag_of jvmti (tags w) thread = None)
  /\ sent w' = (sent w + match o with Unavailable => 0 | _ => 1 end)%nat
  /\ (forall tag, tag_of jvmti (tags w) thread = Some tag ->
        x_trace_jni w' = jni tag /\ x_trace_running w' = true).
Proof.
  intros Hd. pose proof (dumpThread_frame _ _ _ _ _ Hd) as (Ht & Hl & _).
  split; [exact Ht|]. split; [exact Hl|].
  rewrite dumpThread_unfold, GetTag_tag_of in Hd.
  destruct (tag_of jvmti (tags w) thread) as [tag|].
  - destruct (spin jvmti (N.to_nat SPIN_LIMIT) (signalled jvmti tag w)) as [done w5] eqn:Hs.
    pose proof (spin_frame _ _ _ _ _ Hs) as (_ & _ & Hsent & _).
    pose proof (spin_keeps _ _ _ _ _ Hs) as (Hj & Hf).
    assert (Hw : sent w' = S (sent w) /\ x_trace_jni w' = jni tag
                 /\ x_trace_running w' = true /\ o <> Unavailable).
    { destruct done; injection Hd as <- <-;
        (repeat split; [exact Hsent | exact Hj | exact (Hf eq_refl) | discriminate]). }
    destruct Hw as (H1 & H2 & H3 & H4). split; [split; [tauto | discriminate]|].
    split.
    + rewrite H1. destruct o; [tauto | lia | lia].
    + intros tag' Htag. injection Htag as <-. auto.
  - injection Hd as <- <-. split; [tauto|]. split; [simpl; lia | discriminate].
Qed.

(** X7.  A run of [dumpThread] changes neither the registry nor, once it
    has returned, the entry count of the monitor; it is [Unavailable]
    exactly for a thread whose tag cannot be read, sends no signal then
    and exactly one otherwise, and after a signal the slot names the
    environment of the target and the flag is set. *)
Theorem dumpThread_invariants (jvmti : Jvmti) (thread : jthread) (w w' : World)
    (o : Outcome) :
  dumpThread jvmti thread w = (o, w') ->
  tags w' = tags w /\ x_trace_lock w' = x_trace_lock w
  /\ (o = Unavailable <-> tag_of jvmti (tags w) thread = None)
  /\ sent w' = (sent w + match o with Unavailable => 0 | _ => 1 end)%nat
  /\ (forall tag, tag_of jvmti (tags w) thread = Some tag ->
        x_trace_jni w' = jni tag /\ x_trace_running w' = true).
Proof. apply dumpThread_keeps. Qed.

Lemma dumpThread_invariants_witness :
  exists w',
    dumpThread (demo_jvmti demo_table never) 1 demo_world = (Timeout, w')
    /\ sent w' = 1%nat /\ x_trace_lock w' = 0%nat
    /\ x_trace_jni w' = 11 /\ x_trace_running w' = true.
Proof.
  pose proof (demo_timeout_a never (or_introl eq_refl)) as E.
  destruct (dumpThread_invariants _ _ _ _ _ E) as (_ & Hl & _ & Hs & Hj).
  destruct (Hj tag_a eq_refl) as [H1 H2].
  eexists. split; [exact E|]. repeat split; assumption.
Defined.

Lemma dumpThreads_keeps (jvmti : Jvmti) (threads : list jthread) :
  forall (w w' : World) (os : list Outcome),
    dumpThreads jvmti threads w = (os, w') ->
    tags w' = tags w /\ x_trace_lock w' = x_trace_lock w
    /\ sent w' = (sent w + signals os)%nat
    /\ Forall2 (fun t o => o = Unavailable <-> tag_of jvmti (tags w) t = None) threads os.
Proof.
  induction threads as [|t threads IH]; intros w w' os Hd.
  - injection Hd as <- <-. repeat split; [unfold signals; simpl; lia | constructor].
  - cbn [dumpThreads] in Hd. unfold mbind, M_bind, mret, M_ret in Hd.
    destruct (dumpThread jvmti t w) as [o w1] eqn:E1.
    destruct (dumpThreads jvmti threads w1) as [os1 w2] eqn:E2.
    injection Hd as <- <-.
    apply dumpThread_keeps in E1. destruct E1 as (T1 & L1 & U1 & S1 & _).
    apply IH in E2. destruct E2 as (T2 & L2 & S2 & F2).
    rewrite T1 in T2, F2. split; [exact T2|]. split; [congruence|]. split.
    + rewrite S2, S1. unfold signals. destruct o; simpl; lia.
    + constructor; assumption.
Qed.

(** X8.  A dump changes neither the registry nor the entry count of the
    monitor, gives one outcome per enumerated thread, [Unavailable]
    exactly for the threads whose tag cannot be read, and sends one
    signal for each of the others; when the enumeration fails it only
    writes a warning to stderr. *)
Theorem handleClient_invariants (jvmti : Jvmti) (w w' : World) (os : list Outcome) :
  handleClient jvmti w = (os, w') ->
  tags w' = tags w /\ x_trace_lock w' = x_trace_lock w
  /\ sent w' = (sent w + signals os)%nat
  /\ (forall threads, GetAllThreads jvmti = inr threads ->
        Forall2 (fun t o => o = Unavailable <-> tag_of jvmti (tags w) t = None) threads os)
  /\ (forall err, GetAllThreads jvmti = inl err ->
        os = []
        /\ w' = log_add w [EWrite Stderr ("WARNING: GetAllThreads failed: "
                                          +:+ fmt_d err +:+ nl)]).
Proof.
  unfold handleClient. destruct (GetAllThreads jvmti) as [err|threads]; intros Hd.
  - unfold mbind, M_bind, mret, M_ret, fprintf, emit in Hd. injection Hd as <- <-.
    split; [reflexivity|]. split; [reflexivity|].
    split; [unfold signals; simpl; lia|]. split; [discriminate|].
    intros err' He. injection He as <-. split; reflexivity.
  - apply dumpThreads_keeps in Hd. destruct Hd as (H1 & H2 & H3 & H4).
    split; [exact H1|]. split; [exact H2|]. split; [exact H3|]. split; [|discriminate].
    intros threads' Ht. injection Ht as <-. exact H4.
Qed.

Lemma demo_dump_never :
  handleClient (demo_jvmti demo_table never) demo_world
  = ([Timeout; Timeout],
     timed_out (demo_jvmti demo_table never) tag_b
       (timed_out (demo_jvmti demo_table never) tag_a demo_world)).
Proof.
  pose proof (demo_timeout_a never (or_introl eq_refl)) as E1.
  destruct (timed_out_fields (demo_jvmti demo_table never) tag_a demo_world)
    as (Ht & Hi & _ & Hs & _).
  assert (E2 : dumpThread (demo_jvmti demo_table never) 2
                 (timed_out (demo_jvmti demo_table never) tag_a demo_world)
               = (Timeout, timed_out (demo_jvmti demo_table never) tag_b
                             (timed_out (demo_jvmti demo_table never) tag_a demo_world))).
  { apply dumpThread_timeout; [now apply demo_tag|].
    unfold signalled at 1. cbn [in_flight]. rewrite Hi, Hs. constructor. }
  rewrite (handleClient_threads (demo_jvmti demo_table never) [1; 2] _ eq_refl).
  apply (dumpThreads_cons _ _ _ _ _ _ _ _ E1).
  apply (dumpThreads_cons _ _ _ _ _ _ _ _ E2). reflexivity.
Qed.

Lemma handleClient_invariants_witness :
  exists w',
    handleClient (demo_jvmti demo_table never) demo_world = ([Timeout; Timeout], w')
    /\ tags w' = tags demo_world /\ x_trace_lock w' = 0%nat /\ sent w' = 2%nat.
Proof.
  destruct (handleClient_invariants _ _ _ _ demo_dump_never) as (H1 & H2 & H3 & _).
  eexists. split; [exact demo_dump_never|]. repeat split; assumption.
Defined.

(** ** The spin bound *)

Lemma timed_out_slot (jvmti : Jvmti) (tag : ThreadTag) (w : World) :
  x_trace_num_frames (timed_out jvmti tag w) = x_trace_num_frames w
  /\ x_frames (timed_out jvmti tag w) = x_frames w.
Proof.
  unfold timed_out, log_add, left_monitor, RawMonitorExit, emit, ticked.
  cbn [snd x_trace_num_frames x_frames]. split; reflexivity.
Qed.

(** X9.  With no signal in flight, a capture succeeds exactly when the
    handler of the target runs within 100,000,000 polls, after one poll
    more than the handler took; otherwise the requester gives up after
    exactly 100,000,000 polls, the slot keeps its frames, and a signal
    whose handler is only late stays in flight. *)
Theorem dumpThread_spin_bound (jvmti : Jvmti) (thread : jthread) (tag : ThreadTag)
    (w : World) :
  tag_of jvmti (tags w) thread = Some tag -> in_flight w = [] ->
  let o := fst (dumpThread jvmti thread w) in
  let w' := snd (dumpThread jvmti thread w) in
  match handler_delay jvmti (sent w) with
  | Some d =>
      if (d <? SPIN_LIMIT)%N
      then o = Captured /\ polls w' = (polls w + d + 1)%N /\ in_flight w' = []
      else o = Timeout /\ polls w' = (polls w + SPIN_LIMIT)%N
           /\ in_flight w' = [(thread_id tag, (polls w + d)%N)]
           /\ x_trace_num_frames w' = x_trace_num_frames w /\ x_frames w' = x_frames w
  | None =>
      o = Timeout /\ polls w' = (polls w + SPIN_LIMIT)%N /\ in_flight w' = []
      /\ x_trace_num_frames w' = x_trace_num_frames w /\ x_frames w' = x_frames w
  end.
Proof.
  intros Htag Hin. cbv zeta.
  destruct (timed_out_fields jvmti tag w) as (_ & Hi & Hp & _ & _).
  destruct (timed_out_slot jvmti tag w) as (Hn & Hf).
  assert (Hfl : in_flight (signalled jvmti tag w)
                = match handler_delay jvmti (sent w) with
                  | Some d => [(thread_id tag, (polls w + d)%N)]
                  | None => []
                  end)
    by (unfold signalled; cbn [in_flight]; now rewrite Hin).
  destruct (handler_delay jvmti (sent w)) as [d|] eqn:Hdelay.
  - destruct (N.ltb_spec d SPIN_LIMIT) as [Hd|Hd].
    + rewrite (dumpThread_prompt jvmti thread tag d w Htag Hin Hdelay Hd).
      repeat split.
    + rewrite (dumpThread_timeout jvmti thread tag w Htag).
      * cbn [fst snd]. rewrite Hi, Hp, Hn, Hf, Hfl. repeat split.
      * rewrite Hfl. constructor; [cbn [snd]; lia | constructor].
  - rewrite (dumpThread_timeout jvmti thread tag w Htag).
    + cbn [fst snd]. rewrite Hi, Hp, Hn, Hf, Hfl. repeat split.
    + rewrite Hfl. constructor.
Qed.

Lemma dumpThread_spin_bound_witness :
  fst (dumpThread (demo_jvmti demo_table late_first) 1 demo_world) = Timeout
  /\ in_flight (snd (dumpThread (demo_jvmti demo_table late_first) 1 demo_world))
     = [(101, (0 + SPIN_LIMIT)%N)].
Proof.
  pose proof (dumpThread_spin_bound (demo_jvmti demo_table late_first) 1 tag_a demo_world
                eq_refl eq_refl) as H.
  cbv zeta in H. change (handler_delay (demo_jvmti demo_table late_first) (sent demo_world))
    with (Some SPIN_LIMIT) in H.
  change (SPIN_LIMIT <? SPIN_LIMIT)%N with false in H.
  destruct H as (H1 & _ & H2 & _). split; [exact H1 | exact H2].
Defined.

(** ** A dump in which no capture fails *)

Lemma thread_block_deposited (jvmti : Jvmti) (thread : jthread) (e : JNIEnv)
    (tid : pthread_t) (old : list AsyncCallFrame) :
  walker_counts jvmti ->
  thread_block jvmti thread (fst (AsyncGetCallTrace jvmti e MAX_FRAMES tid))
    (deposited jvmti e tid old)
  = thread_block jvmti thread (fst (AsyncGetCallTrace jvmti e MAX_FRAMES tid))
      (snd (AsyncGetCallTrace jvmti e MAX_FRAMES tid)).
Proof.
  intros Hw. unfold thread_block. do 2 f_equal. apply map_ext_in. intros i Hi.
  apply in_seq in Hi. f_equal. apply frame_at_deposited.
  specialize (Hw e MAX_FRAMES tid). lia.
Qed.

Lemma dumpThreads_quiet (jvmti : Jvmti) :
  quiet jvmti -> walker_counts jvmti ->
  forall (threads : list jthread) (w : World),
    in_flight w = [] ->
    exists w',
      dumpThreads jvmti threads w = (map (own_outcome jvmti (tags w)) threads, w')
      /\ in_flight w' = [] /\ tags w' = tags w
      /\ sink w' = sink w ++ concat (map (own_block jvmti (tags w)) threads)
      /\ stderr w' = stderr w.
Proof.
  intros Hq Hc. induction threads as [|t threads IH]; intros w Hin.
  - exists w. cbn [map concat]. rewrite app_nil_r. repeat split; assumption.
  - cbn [map concat]. unfold own_outcome at 1, own_block at 1.
    destruct (tag_of jvmti (tags w) t) as [tag|] eqn:Htag.
    + destruct (Hq (sent w)) as (d & Hdelay & Hd).
      pose proof (dumpThread_prompt jvmti t tag d w Htag Hin Hdelay Hd) as E.
      pose proof (dumpThread_writes _ _ _ _ _ E) as [Hs He].
      match type of E with _ = (_, ?w1) =>
        change (x_trace_num_frames w1)
          with (fst (AsyncGetCallTrace jvmti (jni tag) MAX_FRAMES (thread_id tag))) in Hs;
        change (x_frames w1)
          with (deposited jvmti (jni tag) (thread_id tag) (x_frames w)) in Hs;
        destruct (IH w1 eq_refl) as (w' & E' & H1 & H2 & H3 & H4)
      end.
      rewrite (thread_block_deposited _ _ _ _ _ Hc) in Hs.
      exists w'. split; [exact (dumpThreads_cons _ _ _ _ _ _ _ _ E E')|].
      split; [exact H1|]. split; [exact H2|]. split.
      * rewrite H3, Hs, <- app_assoc. reflexivity.
      * rewrite H4, He. reflexivity.
    + pose proof (dumpThread_untagged jvmti t w Htag) as E.
      pose proof (dumpThread_writes _ _ _ _ _ E) as [Hs He].
      destruct (IH (log_add w [EMonitorEnter; EMonitorExit]) Hin)
        as (w' & E' & H1 & H2 & H3 & H4).
      exists w'. split; [exact (dumpThreads_cons _ _ _ _ _ _ _ _ E E')|].
      split; [exact H1|]. split; [exact H2|]. split.
      * rewrite H3, Hs. reflexivity.
      * rewrite H4, He. reflexivity.
Qed.

(** X10.  When every handler runs within the spin bound, the walker
    writes the frames it counts and no signal is in flight, a dump
    writes, in the order of the enumeration, the block of every thread
    that has a tag, made of the frames the walker finds in that very
    thread; a thread without a tag adds nothing, and nothing goes to
    stderr. *)
Theorem handleClient_quiet (jvmti : Jvmti) (threads : list jthread) (w : World) :
  quiet jvmti -> walker_counts jvmti -> in_flight w = [] ->
  GetAllThreads jvmti = inr threads ->
  exists w',
    handleClient jvmti w = (map (own_outcome jvmti (tags w)) threads, w')
    /\ sink w' = sink w ++ concat (map (own_block jvmti (tags w)) threads)
    /\ stderr w' = stderr w
    /\ in_flight w' = [].
Proof.
  intros Hq Hc Hin Hall.
  destruct (dumpThreads_quiet jvmti Hq Hc threads w Hin) as (w' & E & H1 & _ & H3 & H4).
  exists w'. rewrite (handleClient_threads jvmti threads w Hall). auto.
Qed.

Lemma demo_quiet : quiet (demo_jvmti demo_table prompt).
Proof. intros k. exists 5%N. split; reflexivity. Qed.

Lemma demo_walker_counts (delay : nat -> option N) :
  walker_counts (demo_jvmti demo_table delay).
Proof.
  intros e depth tid. cbn [AsyncGetCallTrace demo_jvmti].
  destruct (tid =? 101); simpl; lia.
Qed.

Lemma handleClient_quiet_witness :
  exists w',
    handleClient (demo_jvmti demo_table prompt) demo_world = ([Captured; Captured], w')
    /\ sink w'
       = thread_block (demo_jvmti demo_table prompt) 1 1 [marker_a]
         ++ thread_block (demo_jvmti demo_table prompt) 2 1 [marker_b].
Proof.
  destruct (handleClient_quiet (demo_jvmti demo_table prompt) [1; 2] demo_world
              demo_quiet (demo_walker_counts prompt) eq_refl eq_refl)
    as (w' & E & Hs & _).
  exists w'. split; [exact E|]. rewrite Hs. reflexivity.
Defined.

(** X11.  Under the same conditions two dumps in a row write the same
    blocks twice: the second is complete and owes nothing to the
    first. *)
Theorem handleClient_twice (jvmti : Jvmti) (threads : list jthread) (w : World) :
  quiet jvmti -> walker_counts jvmti -> in_flight w = [] ->
  GetAllThreads jvmti = inr threads ->
  exists w1 w2,
    handleClient jvmti w = (map (own_outcome jvmti (tags w)) threads, w1)
    /\ handleClient jvmti w1 = (map (own_outcome jvmti (tags w)) threads, w2)
    /\ sink w2 = sink w
                 ++ concat (map (own_block jvmti (tags w)) threads)
                 ++ concat (map (own_block jvmti (tags w)) threads).
Proof.
  intros Hq Hc Hin Hall.
  destruct (dumpThreads_quiet jvmti Hq Hc threads w Hin) as (w1 & E1 & I1 & T1 & S1 & _).
  destruct (dumpThreads_quiet jvmti Hq Hc threads w1 I1) as (w2 & E2 & _ & _ & S2 & _).
  rewrite T1 in E2, S2.
  exists w1, w2. rewrite !(handleClient_threads jvmti threads _ Hall).
  split; [exact E1|]. split; [exact E2|]. rewrite S2, S1, <- app_assoc. reflexivity.
Qed.

Lemma handleClient_twice_witness :
  exists w1 w2,
    handleClient (demo_jvmti demo_table prompt) demo_world = ([Captured; Captured], w1)
    /\ handleClient (demo_jvmti demo_table prompt) w1 = ([Captured; Captured], w2)
    /\ List.length (sink w2) = 12%nat.
Proof.
  destruct (handleClient_twice (demo_jvmti demo_table prompt) [1; 2] demo_world
              demo_quiet (demo_walker_counts prompt) eq_refl eq_refl)
    as (w1 & w2 & E1 & E2 & Hs).
  exists w1, w2. split; [exact E1|]. split; [exact E2|]. rewrite Hs. reflexivity.
Defined.

(** ** The registry *)

Lemma onThreadStart_ok (rt : Tagging) (env : JNIEnv) (self : pthread_t)
    (thread : jthread) (w : World) :
  Allocate rt = 0 -> SetTag rt thread = 0 ->
  onThreadStart rt env self thread w
  = set_tags (<[thread := {| jni := env; thread_id := self |}]> (tags w)) w.
Proof. intros Ha Hs. unfold onThreadStart. rewrite Ha, Hs. reflexivity. Qed.

Lemma onThreadStart_refused (rt : Tagging) (env : JNIEnv) (self : pthread_t)
    (thread : jthread) (w : World) :
  Allocate rt <> 0 \/ SetTag rt thread <> 0 ->
  exists msg, onThreadStart rt env self thread w = (tt, log_add w [EWrite Stderr msg]).
Proof.
  intros H. unfold onThreadStart, ok.
  destruct (Z.eqb_spec (Allocate rt) 0) as [Ha|Ha]; cbn [negb]; [|eexists; reflexivity].
  destruct (Z.eqb_spec (SetTag rt thread) 0) as [Hs|Hs]; cbn [negb];
    [tauto | eexists; reflexivity].
Qed.

Lemma onThreadEnd_unfold (jvmti : Jvmti) (rt : Tagging) (thread : jthread) (w : World) :
  onThreadEnd jvmti rt thread w
  = match tag_of jvmti (tags w) thread with
    | None => (tt, log_add w [EMonitorEnter; EMonitorExit])
    | Some _ =>
        if ok (SetTag rt thread)
        then (tt, log_add (snd (set_tags (delete thread (tags w)) w))
                    [EMonitorEnter; EMonitorExit])
        else (tt, log_add w [EMonitorEnter;
                             EWrite Stderr ("WARNING: SetTag for thread failed: "
                                            +:+ fmt_d (SetTag rt thread) +:+ nl);
                             EMonitorExit])
    end.
Proof.
  unfold onThreadEnd, tag_of. unfold mbind, M_bind, RawMonitorEnter, GetTag, emit.
  cbn [fst snd tags].
  destruct (if GetTag_ok jvmti thread then tags w !! thread else None) as [tag|].
  - destruct (ok (SetTag rt thread)); cbn [negb].
    + unfold set_tags.
      cbn [fst snd tags x_trace_jni x_trace_num_frames x_frames x_trace_running
           x_trace_lock in_flight polls sent log].
      unfold RawMonitorExit, emit, log_add.
      cbn [fst snd tags x_trace_jni x_trace_num_frames x_frames x_trace_running
           x_trace_lock in_flight polls sent log Nat.pred].
      rewrite <- app_assoc. reflexivity.
    + unfold fprintf, emit.
      cbn [fst snd tags x_trace_jni x_trace_num_frames x_frames x_trace_running
           x_trace_lock in_flight polls sent log].
      unfold RawMonitorExit, emit, log_add.
      cbn [fst snd tags x_trace_jni x_trace_num_frames x_frames x_trace_running
           x_trace_lock in_flight polls sent log Nat.pred].
      rewrite <- !app_assoc. reflexivity.
  - unfold mret, M_ret, RawMonitorExit, emit, log_add.
    cbn [fst snd tags x_trace_jni x_trace_num_frames x_frames x_trace_running
         x_trace_lock in_flight polls sent log Nat.pred].
    rewrite <- app_assoc. reflexivity.
Qed.

(** X12.  A thread that has started, when neither allocation nor
    attachment is refused, is the one the next capture of its handle
    addresses: [dumpThread] arms the slot with the environment of the
    thread that ran the callback and sends the signal to it; the tags
    of other handles are as before, and nothing is logged. *)
Theorem onThreadStart_then_dumpThread (jvmti : Jvmti) (rt : Tagging) (env : JNIEnv)
    (self : pthread_t) (thread : jthread) (w : World) :
  Allocate rt = 0 -> SetTag rt thread = 0 -> GetTag_ok jvmti thread = true ->
  let w1 := snd (onThreadStart rt env self thread w) in
  tags w1 !! thread = Some {| jni := env; thread_id := self |}
  /\ (forall other, other <> thread -> tags w1 !! other = tags w !! other)
  /\ log w1 = log w
  /\ exists rest,
       fst (dumpThread jvmti thread w1) <> Unavailable
       /\ log (snd (dumpThread jvmti thread w1))
          = log w ++ [EMonitorEnter; ESlotArm env;
                      ETestAndSet (x_trace_running w); EKill self] ++ rest.
Proof.
  intros Ha Hs Hok. cbv zeta. rewrite (onThreadStart_ok rt env self thread w Ha Hs).
  unfold set_tags. cbn [snd tags log].
  split; [apply lookup_insert_eq|]. split; [intros other Hne; now apply lookup_insert_ne|].
  split; [reflexivity|].
  match goal with |- context [dumpThread jvmti thread ?w0] =>
    destruct (dumpThread jvmti thread w0) as [o w'] eqn:E end.
  apply dumpThread_frame in E. destruct E as (_ & _ & E).
  unfold GetTag in E. cbn [fst tags x_trace_running log] in E.
  rewrite Hok, lookup_insert_eq in E. cbn [fst snd].
  destruct o; [destruct E as [E _]; discriminate E | |].
  - destruct E as (tag & pre & Htag & _ & Hlog). injection Htag as <-.
    eexists. split; [discriminate | exact Hlog].
  - destruct E as (tag & pre & Htag & _ & _ & Hlog). injection Htag as <-.
    eexists. split; [discriminate | exact Hlog].
Qed.

Lemma onThreadStart_then_dumpThread_witness :
  tags (snd (onThreadStart demo_tagging 33 303 3 demo_world)) !! 3
  = Some {| jni := 33; thread_id := 303 |}.
Proof.
  exact (proj1 (onThreadStart_then_dumpThread (demo_jvmti demo_table prompt) demo_tagging
                  33 303 3 demo_world eq_refl eq_refl eq_refl)).
Defined.

(** X13.  When the allocation or the attachment is refused,
    [onThreadStart] writes one warning to stderr and leaves the world as
    it is otherwise, so a thread that had no tag stays out of reach:
    its capture is [Unavailable] and sends no signal. *)
Theorem onThreadStart_refused_unreachable (jvmti : Jvmti) (rt : Tagging) (env : JNIEnv)
    (self : pthread_t) (thread : jthread) (w : World) :
  Allocate rt <> 0 \/ SetTag rt thread <> 0 ->
  let w1 := snd (onThreadStart rt env self thread w) in
  (exists msg, w1 = log_add w [EWrite Stderr msg])
  /\ tags w1 = tags w
  /\ (tags w !! thread = None ->
      fst (dumpThread jvmti thread w1) = Unavailable
      /\ sent (snd (dumpThread jvmti thread w1)) = sent w
      /\ in_flight (snd (dumpThread jvmti thread w1)) = in_flight w).
Proof.
  intros H. cbv zeta.
  destruct (onThreadStart_refused rt env self thread w H) as [msg ->]. cbn [snd].
  split; [now exists msg|]. split; [reflexivity|]. intros Hnone.
  rewrite dumpThread_untagged; [repeat split|].
  unfold GetTag. cbn [fst tags log_add]. rewrite Hnone.
  now destruct (GetTag_ok jvmti thread).
Qed.

Lemma onThreadStart_refused_unreachable_witness :
  fst (dumpThread (demo_jvmti demo_table prompt) 3
         (snd (onThreadStart {| Allocate := 110; SetTag := fun _ => 0 |} 33 303 3
                 demo_world)))
  = Unavailable.
Proof.
  assert (Hr : 110 <> 0) by discriminate.
  destruct (onThreadStart_refused_unreachable (demo_jvmti demo_table prompt)
              {| Allocate := 110; SetTag := fun _ => 0 |} 33 303 3 demo_world
              (or_introl Hr)) as (_ & _ & H).
  exact (proj1 (H eq_refl)).
Defined.

(** X14.  After [onThreadEnd] has detached the tag of a thread, the
    monitor is released, the tags of other handles are as before, and
    a capture of the thread is [Unavailable] and sends no signal.  When
    the thread has no tag to detach, [onThreadEnd] only enters and
    leaves the monitor; when the detachment is refused, the thread
    keeps its tag value and a warning goes to stderr. *)
Theorem onThreadEnd_then_dumpThread (jvmti : Jvmti) (rt : Tagging) (thread : jthread)
    (w : World) :
  let w1 := snd (onThreadEnd jvmti rt thread w) in
  x_trace_lock w1 = x_trace_lock w
  /\ (forall tag, tag_of jvmti (tags w) thread = Some tag -> SetTag rt thread = 0 ->
        tags w1 !! thread = None
        /\ (forall other, other <> thread -> tags w1 !! other = tags w !! other)
        /\ stderr w1 = stderr w
        /\ fst (dumpThread jvmti thread w1) = Unavailable
        /\ sent (snd (dumpThread jvmti thread w1)) = sent w
        /\ in_flight (snd (dumpThread jvmti thread w1)) = in_flight w)
  /\ (tag_of jvmti (tags w) thread = None ->
        w1 = log_add w [EMonitorEnter; EMonitorExit])
  /\ (forall tag, tag_of jvmti (tags w) thread = Some tag -> SetTag rt thread <> 0 ->
        tags w1 = tags w /\ exists msg, stderr w1 = stderr w ++ [msg]).
Proof.
  cbv zeta. rewrite onThreadEnd_unfold. unfold ok.
  destruct (tag_of jvmti (tags w) thread) as [tag|] eqn:Htag.
  - destruct (Z.eqb_spec (SetTag rt thread) 0) as [Hs|Hs]; cbn [snd].
    + split; [reflexivity|]. split; [|split; [discriminate | intros; contradiction]].
      intros _ _ _. unfold set_tags. cbn [snd].
      match goal with |- context [dumpThread jvmti thread ?w0] => set (w1 := w0) end.
      assert (Hnone : fst (GetTag jvmti thread w1) = None).
      { unfold GetTag. cbn [fst]. subst w1. cbn [tags log_add].
        rewrite lookup_delete_eq. now destruct (GetTag_ok jvmti thread). }
      rewrite (dumpThread_untagged jvmti thread w1 Hnone). subst w1.
      cbn [fst snd tags sent in_flight log_add].
      split; [apply lookup_delete_eq|].
      split; [intros other Hne; now apply lookup_delete_ne|].
      split; [|repeat split].
      rewrite stderr_log_add. simpl. apply app_nil_r.
    + split; [reflexivity|]. split; [intros; contradiction|]. split; [discriminate|].
      intros _ _ _. split; [reflexivity|]. eexists.
      rewrite stderr_log_add. reflexivity.
  - cbn [snd]. split; [reflexivity|]. split; [discriminate|].
    split; [reflexivity | discriminate].
Qed.

Lemma onThreadEnd_then_dumpThread_witness :
  fst (dumpThread (demo_jvmti demo_table prompt) 1
         (snd (onThreadEnd (demo_jvmti demo_table prompt) demo_tagging 1 demo_world)))
  = Unavailable.
Proof.
  destruct (onThreadEnd_then_dumpThread (demo_jvmti demo_table prompt) demo_tagging 1
              demo_world) as (_ & H & _).
  exact (proj1 (proj2 (proj2 (proj2 (H tag_a eq_refl eq_refl))))).
Defined.

(** X15.  A thread that starts and ends leaves the registry as it was
    before, when it had no tag and the runtime refuses no call. *)
Theorem onThreadStart_onThreadEnd (jvmti : Jvmti) (rt : Tagging) (env : JNIEnv)
    (self : pthread_t) (thread : jthread) (w : World) :
  Allocate rt = 0 -> SetTag rt thread = 0 -> GetTag_ok jvmti thread = true ->
  tags w !! thread = None ->
  let w2 := snd (onThreadEnd jvmti rt thread (snd (onThreadStart rt env self thread w))) in
  tags w2 = tags w /\ x_trace_lock w2 = x_trace_lock w
  /\ sink w2 = sink w /\ stderr w2 = stderr w.
Proof.
  intros Ha Hs Hok Hnone. cbv zeta.
  rewrite (onThreadStart_ok rt env self thread w Ha Hs), onThreadEnd_unfold.
  unfold set_tags. cbn [snd tags]. unfold tag_of, ok.
  rewrite Hok, lookup_insert_eq, Hs. cbn [Z.eqb snd tags x_trace_lock log_add].
  split; [now rewrite delete_insert_id|]. split; [reflexivity|].
  rewrite sink_log_add, stderr_log_add. simpl. now rewrite !app_nil_r.
Qed.

Lemma onThreadStart_onThreadEnd_witness :
  tags (snd (onThreadEnd (demo_jvmti demo_table prompt) demo_tagging 3
               (snd (onThreadStart demo_tagging 33 303 3 demo_world))))
  = tags demo_world.
Proof.
  exact (proj1 (onThreadStart_onThreadEnd (demo_jvmti demo_table prompt) demo_tagging
                  33 303 3 demo_world eq_refl eq_refl eq_refl eq_refl)).
Defined.

(** ** Loading *)

Lemma enable_events_none (vm : JavaVM) (events : list Z) :
  enable_events vm events = None
  <-> Forall (fun event => SetEventNotificationMode vm event = 0) events.
Proof.
  induction events as [|event rest IH]; cbn [enable_events]; [now split|].
  unfold ok. destruct (Z.eqb_spec (SetEventNotificationMode vm event) 0) as [He|He].
  - rewrite IH. split; [now constructor | now inversion 1].
  - split; [discriminate | inversion 1; contradiction].
Qed.

Lemma Agent_OnLoad_one_complaint (vm : JavaVM) (options : option string) :
  (returned (Agent_OnLoad vm options) = JNI_OK /\ complaints (Agent_OnLoad vm options) = [])
  \/ (returned (Agent_OnLoad vm options) = JNI_ERR
      /\ exists line, complaints (Agent_OnLoad vm options) = [line]).
Proof.
  unfold Agent_OnLoad.
  destruct (match options with
            | Some s => let '(n, v) := sscanf_port s in if n =? 1 then v else None
            | None => None
            end) as [p|]; [|right; split; [reflexivity | eexists; reflexivity]].
  destruct (negb (GetEnv vm =? JNI_OK)); [right; split; [reflexivity | eexists; reflexivity]|].
  destruct (negb (ok (CreateRawMonitor vm)));
    [right; split; [reflexivity | eexists; reflexivity]|].
  destruct (negb (ok (AddCapabilities vm)));
    [right; split; [reflexivity | eexists; reflexivity]|].
  destruct (negb (ok (SetEventCallbacks vm)));
    [right; split; [reflexivity | eexists; reflexivity]|].
  destruct (enable_events vm _);
    [right; split; [reflexivity | eexists; reflexivity] | left; split; reflexivity].
Qed.

(** X16.  [Agent_OnLoad] returns [JNI_OK] or [JNI_ERR]; it returns
    [JNI_OK] exactly when the options carry a port, [GetEnv] answers
    [JNI_OK] and none of [CreateRawMonitor], [AddCapabilities],
    [SetEventCallbacks] and the five [SetEventNotificationMode] calls is
    refused.  It then writes nothing to stderr; otherwise it writes one
    line. *)
Theorem Agent_OnLoad_outcome (vm : JavaVM) (options : option string) :
  (returned (Agent_OnLoad vm options) = JNI_OK
   <-> (exists s, options = Some s /\ port_option s)
       /\ GetEnv vm = JNI_OK /\ CreateRawMonitor vm = 0 /\ AddCapabilities vm = 0
       /\ SetEventCallbacks vm = 0
       /\ Forall (fun event => SetEventNotificationMode vm event = 0)
            [JVMTI_EVENT_VM_INIT; JVMTI_EVENT_CLASS_LOAD; JVMTI_EVENT_CLASS_PREPARE;
             JVMTI_EVENT_THREAD_START; JVMTI_EVENT_THREAD_END])
  /\ (returned (Agent_OnLoad vm options) = JNI_OK
      \/ returned (Agent_OnLoad vm options) = JNI_ERR)
  /\ (returned (Agent_OnLoad vm options) = JNI_OK <-> complaints (Agent_OnLoad vm options) = [])
  /\ (returned (Agent_OnLoad vm options) = JNI_ERR
      <-> exists line, complaints (Agent_OnLoad vm options) = [line]).
Proof.
  split; [|destruct (Agent_OnLoad_one_complaint vm options) as [[Hr Hc]|[Hr [line Hc]]];
           rewrite Hr, Hc; unfold JNI_OK, JNI_ERR].
  - destruct options as [s|];
      [|split; [discriminate | intros [(s & Hs & _) _]; discriminate Hs]].
    destruct (sscanf_port s) as [n v] eqn:Hscan.
    assert (Hopt : (exists p, n = 1 /\ v = Some p) <-> port_option s).
    { rewrite <- sscanf_port_matches, Hscan. split.
      - intros (p & -> & ->). now exists p.
      - intros [p Hp]. injection Hp as -> ->. now exists p. }
    unfold Agent_OnLoad. rewrite Hscan.
    destruct (Z.eqb_spec n 1) as [->|Hn].
    2:{ split; [discriminate|]. intros [(s' & Hs' & Hp) _]. injection Hs' as <-.
        apply Hopt in Hp. destruct Hp as (p & Hp & _). contradiction. }
    destruct v as [p|].
    2:{ split; [discriminate|]. intros [(s' & Hs' & Hp) _]. injection Hs' as <-.
        apply Hopt in Hp. destruct Hp as (p & _ & Hp). discriminate Hp. }
    assert (Hs : exists s', Some s = Some s' /\ port_option s').
    { exists s. split; [reflexivity|]. apply Hopt. now exists p. }
    unfold ok.
    destruct (Z.eqb_spec (GetEnv vm) JNI_OK) as [He|He]; cbn [negb];
      [|split; [discriminate | tauto]].
    destruct (Z.eqb_spec (CreateRawMonitor vm) 0) as [Hm|Hm]; cbn [negb];
      [|split; [discriminate | tauto]].
    destruct (Z.eqb_spec (AddCapabilities vm) 0) as [Hc|Hc]; cbn [negb];
      [|split; [discriminate | tauto]].
    destruct (Z.eqb_spec (SetEventCallbacks vm) 0) as [Hcb|Hcb]; cbn [negb];
      [|split; [discriminate | tauto]].
    destruct (enable_events vm _) as [err|] eqn:Hev.
    + split; [discriminate|]. intros (_ & _ & _ & _ & _ & Hall).
      apply enable_events_none in Hall. congruence.
    + apply enable_events_none in Hev. cbn [returned]. tauto.
  - split; [now left|]. split; [tauto|]. split; [discriminate | intros [? ?]; discriminate].
  - split; [now right|]. split; [split; discriminate|]. split; [now exists line | reflexivity].
Qed.

Lemma Agent_OnLoad_outcome_witness :
  returned (Agent_OnLoad demo_vm (Some "port=80abc")) = JNI_OK
  /\ complaints (Agent_OnLoad demo_vm (Some "port=80abc")) = [].
Proof.
  assert (Hgood : port_option "port=80abc").
  { apply sscanf_port_matches. exists 80. reflexivity. }
  destruct (Agent_OnLoad_outcome demo_vm (Some "port=80abc")) as (H1 & _ & H2 & _).
  assert (Hok : returned (Agent_OnLoad demo_vm (Some "port=80abc")) = JNI_OK).
  { apply H1. split; [exists "port=80abc"; now split|].
    repeat split; repeat constructor. }
  split; [exact Hok | exact (proj1 H2 Hok)].
Defined.

(** ** Decimal ports *)

Lemma append_cons (c : ascii) (a b : string) : String c a +:+ b = String c (a +:+ b).
Proof. reflexivity. Qed.

Lemma read_digits_stop (acc : Z) (tail : string) :
  starts_with_digit tail = false -> read_digits acc tail = (acc, tail).
Proof. destruct tail as [|c r]; [reflexivity|]. cbn. now intros ->. Qed.

Lemma read_digits_acc (u : Decimal.uint) (acc : positive) (tail : string) :
  starts_with_digit tail = false ->
  read_digits (Z.pos acc) (NilEmpty.string_of_uint u +:+ tail)
  = (Z.pos (Pos.of_uint_acc u acc), tail).
Proof.
  intros Ht. revert acc.
  induction u as [|u IH|u IH|u IH|u IH|u IH|u IH|u IH|u IH|u IH|u IH]; intros acc;
    cbn [NilEmpty.string_of_uint Pos.of_uint_acc];
    [now apply read_digits_stop|..];
    rewrite append_cons; cbn [read_digits];
    match goal with |- context [isdigit ?c] => change (isdigit c) with true end;
    cbv iota;
    match goal with |- context [digit_value ?c] =>
      let v := eval vm_compute in (digit_value c) in change (digit_value c) with v end;
    rewrite <- IH; f_equal; lia.
Qed.

Lemma read_digits_uint (u : Decimal.uint) (tail : string) :
  starts_with_digit tail = false ->
  read_digits 0 (NilEmpty.string_of_uint u +:+ tail) = (Z.of_N (Pos.of_uint u), tail).
Proof.
  intros Ht.
  induction u as [|u IH|u IH|u IH|u IH|u IH|u IH|u IH|u IH|u IH|u IH];
    cbn [NilEmpty.string_of_uint Pos.of_uint];
    [now apply read_digits_stop|..];
    rewrite append_cons; cbn [read_digits];
    match goal with |- context [isdigit ?c] => change (isdigit c) with true end;
    cbv iota;
    match goal with |- context [digit_value ?c] =>
      let v := eval vm_compute in (10 * 0 + digit_value c) in
      change (10 * 0 + digit_value c) with v end;
    [exact IH|..];
    cbn [Z.of_N]; rewrite <- (read_digits_acc u _ tail Ht); reflexivity.
Qed.

Lemma starts_with_digit_uint (u : Decimal.uint) (tail : string) :
  u <> Decimal.Nil -> starts_with_digit (NilEmpty.string_of_uint u +:+ tail) = true.
Proof. destruct u; [congruence | reflexivity..]. Qed.

Lemma scan_d_positive (p : positive) (tail : string) :
  starts_with_digit tail = false ->
  scan_d (NilEmpty.string_of_uint (Pos.to_uint p) +:+ tail) = Matched (Z.pos p) tail.
Proof.
  intros Ht.
  pose proof (starts_with_digit_uint _ tail (DecimalPos.Unsigned.to_uint_nonnil p)) as Hs.
  pose proof (read_digits_uint (Pos.to_uint p) tail Ht) as Hr.
  rewrite DecimalPos.Unsigned.of_to in Hr. cbn [Z.of_N] in Hr.
  unfold scan_d.
  destruct (NilEmpty.string_of_uint (Pos.to_uint p) +:+ tail) as [|c r]; [discriminate Hs|].
  cbn [starts_with_digit] in Hs.
  destruct (digit_not_space_or_sign c Hs) as (Hsp & Hm & Hpl).
  cbn [skip_spaces]. rewrite Hsp, Hm, Hpl. cbn [orb starts_with_digit].
  rewrite Hs, Hr. reflexivity.
Qed.

Lemma scan_d_decimal (n : Z) (tail : string) :
  starts_with_digit tail = false -> scan_d (fmt_d n +:+ tail) = Matched n tail.
Proof.
  intros Ht. unfold fmt_d. destruct n as [|p|p]; cbn [Z.to_int NilEmpty.string_of_int].
  - cbn [NilEmpty.string_of_uint]. rewrite append_cons. unfold scan_d.
    cbn [skip_spaces]. change (isspace "0") with false. cbv iota.
    change (Ascii.eqb "0" "-") with false. change (Ascii.eqb "0" "+") with false.
    cbn [orb starts_with_digit]. change (isdigit "0") with true. cbv iota.
    cbn [read_digits]. change (isdigit "0") with true. cbv iota.
    change (10 * 0 + digit_value "0") with 0.
    change (EmptyString +:+ tail) with tail.
    now rewrite (read_digits_stop 0 tail Ht).
  - now apply scan_d_positive.
  - rewrite append_cons. unfold scan_d.
    cbn [skip_spaces]. change (isspace "-") with false. cbv iota.
    change (Ascii.eqb "-" "-") with true. cbn [orb].
    rewrite (starts_with_digit_uint _ tail (DecimalPos.Unsigned.to_uint_nonnil p)).
    pose proof (read_digits_uint (Pos.to_uint p) tail Ht) as Hr.
    rewrite DecimalPos.Unsigned.of_to in Hr. cbn [Z.of_N] in Hr.
    rewrite Hr. reflexivity.
Qed.

Lemma store_int_id (n : Z) : in_jint n -> store_int n = n.
Proof.
  unfold in_jint, jint_min, jint_max, store_int. intros H.
  rewrite Z.min_r, Z.max_r by lia. apply to_jint_id. exact H.
Qed.

(** X17.  The decimal numeral of an [int], followed by anything that
    does not go on with a digit, is read back as that [int]: the
    options [port=] and the numeral set the port to it, whatever the
    virtual machine answers afterwards. *)
Theorem Agent_OnLoad_decimal_port (vm : JavaVM) (n : Z) (tail : string) :
  in_jint n -> starts_with_digit tail = false ->
  sscanf_port ("port=" +:+ fmt_d n +:+ tail) = (1, Some n)
  /\ port (Agent_OnLoad vm (Some ("port=" +:+ fmt_d n +:+ tail))) = n.
Proof.
  intros Hn Ht.
  assert (H : sscanf_port ("port=" +:+ fmt_d n +:+ tail) = (1, Some n)).
  { unfold sscanf_port. rewrite match_literal_ok, (scan_d_decimal n tail Ht).
    now rewrite (store_int_id n Hn). }
  split; [exact H|]. exact (proj1 (Agent_OnLoad_scanned vm _ n H)).
Qed.

Lemma Agent_OnLoad_decimal_port_witness :
  port (Agent_OnLoad demo_vm (Some ("port=" +:+ fmt_d 8080 +:+ ",verbose"))) = 8080.
Proof.
  assert (Hn : in_jint 8080) by (unfold in_jint, jint_min, jint_max; lia).
  exact (proj2 (Agent_OnLoad_decimal_port demo_vm 8080 ",verbose" Hn eq_refl)).
Defined.
